(** * React Code Connect file generation (cli/src/react/create.ts)

    A shallow embedding of the prop-mapping generator of the Code Connect
    command line and a verification of its documented behaviour.

    Conventions of the embedding.
    - A JavaScript string is a [string]: a sequence of 8-bit code units read
      as ASCII text.  [toLowerCase] folds the letters A-Z and the classes
      [[0-9]], [[a-zA-Z]] and [\s] are the ASCII ones; units above 127 are
      caseless symbols.
    - A JavaScript object is the list of its own enumerable entries in the
      order [Object.entries] yields them; an array is the object whose keys
      are its indices.
    - [throw] is the [Throw] completion of the [outcome] monad.
    - The file system is a finite map from paths to nodes.  [mkdirSync] and
      [writeFileSync] throw where a regular file or a directory is in the
      way (EEXIST, ENOTDIR, EISDIR, ENOENT); permissions and the other
      failures of the host are outside the model.
    - What the file imports from elsewhere (node's [path], lodash, prettier,
      [getOutFileName], [normalizeComponentName]) is a field of [Platform];
      the theorems are stated for every platform, the examples run on
      [examplePlatform]. *)

From Stdlib Require Import String Ascii List Bool Arith Lia.
From stdpp Require Import base option gmap strings list pretty.
Import ListNotations.

Local Open Scope string_scope.
Local Open Scope list_scope.

Set Warnings "-register-all".

(** ** Text *)

Definition nl : string := String (ascii_of_nat 10) EmptyString.
Definition dq : string := String (ascii_of_nat 34) EmptyString.
Definition sq : string := "'".

(** A template fragment between double quotes. *)
Definition quoted (s : string) : string := dq +:+ s +:+ dq.

Definition inRange (lo hi : nat) (c : ascii) : bool :=
  Nat.leb lo (nat_of_ascii c) && Nat.leb (nat_of_ascii c) hi.

Definition isDigit (c : ascii) : bool := inRange 48 57 c.
Definition isUpper (c : ascii) : bool := inRange 65 90 c.
Definition isLower (c : ascii) : bool := inRange 97 122 c.
Definition isAlnum (c : ascii) : bool := isDigit c || isUpper c || isLower c.

(** The class [\s]. *)
Definition isSpace (c : ascii) : bool :=
  inRange 9 13 c || Nat.eqb (nat_of_ascii c) 32.

(** The class [[0-9:]]. *)
Definition isDigitOrColon (c : ascii) : bool :=
  isDigit c || Ascii.eqb c ":".

Definition lowerChar (c : ascii) : ascii :=
  if isUpper c then ascii_of_nat (nat_of_ascii c + 32) else c.

Fixpoint mapString (f : ascii -> ascii) (s : string) : string :=
  match s with
  | EmptyString => EmptyString
  | String c r => String (f c) (mapString f r)
  end.

Fixpoint filterString (p : ascii -> bool) (s : string) : string :=
  match s with
  | EmptyString => EmptyString
  | String c r => if p c then String c (filterString p r) else filterString p r
  end.

Fixpoint allString (p : ascii -> bool) (s : string) : bool :=
  match s with
  | EmptyString => true
  | String c r => p c && allString p r
  end.

(** [String.prototype.toLowerCase]. *)
Definition toLowerCase (s : string) : string := mapString lowerChar s.

(** [Array.prototype.join]. *)
Fixpoint join (sep : string) (l : list string) : string :=
  match l with
  | [] => ""
  | [x] => x
  | x :: r => x +:+ sep +:+ join sep r
  end.

(** Truthiness of a string value: [""] is falsy. *)
Definition truthy (s : string) : bool := negb (String.eqb s "").

(** Truthiness of an optional string: [undefined] and [""] are falsy. *)
Definition given (o : option string) : bool :=
  match o with
  | Some s => truthy s
  | None => false
  end.

(** [s.startsWith('.')]. *)
Definition startsWithDot (s : string) : bool :=
  match s with
  | String c _ => Ascii.eqb c "."
  | EmptyString => false
  end.

(** [s.split('.')[0]]: the units before the first dot. *)
Fixpoint beforeFirstDot (s : string) : string :=
  match s with
  | EmptyString => EmptyString
  | String c r => if Ascii.eqb c "." then EmptyString else String c (beforeFirstDot r)
  end.

(** [s.replaceAll(pat, rep)] for a string pattern: the occurrences are taken
    from left to right and do not overlap; [skip] counts the units of the
    occurrence under way that are still to be dropped. *)
Fixpoint replaceAllFrom (pat rep : string) (skip : nat) (s : string) : string :=
  match s with
  | EmptyString => EmptyString
  | String c r =>
      match skip with
      | S k => replaceAllFrom pat rep k r
      | O =>
          if String.prefix pat s
          then rep +:+ replaceAllFrom pat rep (String.length pat - 1) r
          else String c (replaceAllFrom pat rep 0 r)
      end
  end.

Fixpoint interleave (rep : string) (s : string) : string :=
  match s with
  | EmptyString => rep
  | String c r => rep +:+ String c (interleave rep r)
  end.

Definition replaceAll (pat rep s : string) : string :=
  match pat with
  | EmptyString => interleave rep s
  | _ => replaceAllFrom pat rep 0 s
  end.

(** ** Completions *)

Inductive outcome (A : Type) : Type :=
| Return (a : A)
| Throw (message : string).
Arguments Return {A} a.
Arguments Throw {A} message.

#[global] Instance outcome_ret : MRet outcome := fun A a => Return a.

#[global] Instance outcome_bind : MBind outcome := fun A B k m =>
  match m with
  | Return a => k a
  | Throw e => Throw e
  end.

(** Running a fallible step over a list, left to right; the first throw
    aborts the rest. *)
Fixpoint forEach {A B : Type} (f : A -> outcome B) (l : list A) : outcome (list B) :=
  match l with
  | [] => Return []
  | a :: r => b ← f a; bs ← forEach f r; Return (b :: bs)
  end.

(** ** Lines 16-45: names and values *)

Definition isBooleanKind (propValue : string) : bool :=
  let normalized := toLowerCase propValue in
  String.eqb normalized "true" ||
  String.eqb normalized "false" ||
  String.eqb normalized "yes" ||
  String.eqb normalized "no" ||
  String.eqb normalized "on" ||
  String.eqb normalized "off".

(** [name.replace(/#[0-9:]*/g, '')]: every ['#'] opens a match, which runs
    over the digits and colons that follow; [inMatch] tells whether the unit
    before the current one belonged to a match. *)
Fixpoint dropNodeIds (inMatch : bool) (name : string) : string :=
  match name with
  | EmptyString => EmptyString
  | String c r =>
      if Ascii.eqb c "#" then dropNodeIds true r
      else if inMatch && isDigitOrColon c then dropNodeIds true r
      else String c (dropNodeIds false r)
  end.

Definition normalizePropName (name : string) : string := dropNodeIds false name.

(** [name.replace(/#[0-9:]+$/g, '')]: the match is a ['#'] followed by one or
    more digits or colons that reach the end of the input. *)
Fixpoint dropTrailingNodeId (name : string) : string :=
  match name with
  | EmptyString => EmptyString
  | String c r =>
      if Ascii.eqb c "#" && truthy r && allString isDigitOrColon r
      then EmptyString
      else String c (dropTrailingNodeId r)
  end.

(** [s.replace(/[^a-zA-Z0-9\s]/g, '')]. *)
Definition dropSpecialCharacters (s : string) : string :=
  filterString (fun c => isAlnum c || isSpace c) s.

(** [name.replace(/[^a-zA-Z0-9]/g, '-').toLowerCase()]. *)
Definition normalizePropValue (name : string) : string :=
  toLowerCase (mapString (fun c => if isAlnum c then c else "-"%char) name).

(** ** Data model *)

(** A JavaScript value as the generic traversal of line 125 sees it.  A
    number is carried by its decimal text. *)
Inductive JsValue : Type :=
| JUndefined
| JBoolean (b : bool)
| JNumber (text : string)
| JString (s : string)
| JObject (entries : list (string * JsValue)).

(** A value of a value mapping: a literal or a nested intrinsic. *)
Inductive ValueMappingKind (I : Type) : Type :=
| VIntrinsic (i : I)
| VString (s : string)
| VNumber (text : string)
| VBoolean (b : bool)
| VUndefined.
Arguments VIntrinsic {I} i.
Arguments VString {I} s.
Arguments VNumber {I} text.
Arguments VBoolean {I} b.
Arguments VUndefined {I}.

(** The intrinsics of [../connect/intrinsics]: the six kinds the generator
    renders, and [FigmaOther] for an intrinsic of any other kind, with the
    runtime name of its kind (none of the six) and its [args] object. *)
Inductive Intrinsic : Type :=
| FigmaString (figmaPropName : string)
| FigmaBoolean (figmaPropName : string)
    (valueMapping : option (list (string * ValueMappingKind Intrinsic)))
| FigmaEnum (figmaPropName : string)
    (valueMapping : option (list (string * ValueMappingKind Intrinsic)))
| FigmaInstance (figmaPropName : string)
| FigmaChildren (layers : list string)
| FigmaTextContent (layer : string)
| FigmaOther (kind : string) (args : JsValue).

Inductive IntrinsicKind : Type :=
| KString | KBoolean | KEnum | KInstance | KChildren | KTextContent
| KOther (name : string).

Definition kindOf (i : Intrinsic) : IntrinsicKind :=
  match i with
  | FigmaString _ => KString
  | FigmaBoolean _ _ => KBoolean
  | FigmaEnum _ _ => KEnum
  | FigmaInstance _ => KInstance
  | FigmaChildren _ => KChildren
  | FigmaTextContent _ => KTextContent
  | FigmaOther k _ => KOther k
  end.

(** The runtime value of a member of the [IntrinsicKind] enum. *)
Definition kindName (k : IntrinsicKind) : string :=
  match k with
  | KString => "string"
  | KBoolean => "boolean"
  | KEnum => "enum"
  | KInstance => "instance"
  | KChildren => "children"
  | KTextContent => "text-content"
  | KOther name => name
  end.

Definition PropMapping : Type := list (string * Intrinsic).

Inductive PropertyType : Type :=
| BOOLEAN | TEXT | VARIANT | INSTANCE_SWAP
| OtherType (name : string).

Record ComponentPropertyDefinition : Type := {
  type : PropertyType;
  variantOptions : option (list string)
}.

Record Component : Type := {
  normalizedName : string;
  figmaNodeUrl : string;
  componentPropertyDefinitions : list (string * ComponentPropertyDefinition)
}.

Record CreateRequestPayload : Type := {
  component : Component;
  destinationFile : option string;
  destinationDir : option string;
  sourceFilepath : option string;
  sourceExport : option string;
  propMapping : option PropMapping
}.

Inductive Level : Type := ERROR | INFO.

Record Message : Type := { message : string; level : Level }.

Record CreatedFile : Type := { filePath : string }.

Record CreateResponsePayload : Type := {
  createdFiles : list CreatedFile;
  messages : list Message
}.

(** What create.ts imports. *)
Record Platform : Type := {
  (** [path.sep] *)
  path_sep : string;
  (** [path.dirname] *)
  path_dirname : string -> string;
  (** [path.relative(from, to)] *)
  path_relative : string -> string -> string;
  (** [path.parse(p).name] *)
  path_parse_name : string -> string;
  (** lodash's [camelCase] *)
  camelCase : string -> string;
  (** [normalizeComponentName] of [../connect/create] *)
  normalizeComponentName : string -> string;
  (** [getOutFileName({outFile, outDir, sourceFilename, extension})] of
      [../connect/create_common] *)
  getOutFileName : option string -> option string -> string -> string -> string;
  (** [prettier.format(text, {parser: 'typescript', semi: false,
      trailingComma: 'all'})], which throws on text it cannot parse *)
  prettier_format : string -> outcome string
}.

(** ** Lines 32-40 *)

Definition generateCodePropName (P : Platform) (name : string) : string :=
  let cleanedName := dropSpecialCharacters (dropTrailingNodeId name) in
  camelCase P cleanedName.

(** ** Lines 47-93: rendering an intrinsic *)

(** A template literal prints an absent value as [undefined]. *)
Definition interpolate (o : option string) : string :=
  match o with
  | Some s => s
  | None => "undefined"
  end.

Definition booleanText (b : bool) : string := if b then "true" else "false".

(** [generateExpressionFromIntrinsic], with [generateExpressionValueMapping]
    and [generateExpressionValueMappingKind] as its inner recursion over the
    entries of a value mapping.  The latter has no [return] for a value that
    is neither an intrinsic nor a literal, hence its optional result; a
    [ValueMappingKind] is always one of the two. *)
Fixpoint generateExpressionFromIntrinsic (i : Intrinsic) : outcome string :=
  let generateExpressionValueMappingKind (v : ValueMappingKind Intrinsic)
      : outcome (option string) :=
    match v with
    | VIntrinsic i' => e ← generateExpressionFromIntrinsic i'; Return (Some e)
    | VString s => Return (Some (quoted s))
    | VNumber text => Return (Some text)
    | VBoolean b => Return (Some (booleanText b))
    | VUndefined => Return (Some "undefined")
    end in
  let entriesText :=
    fix entriesText (es : list (string * ValueMappingKind Intrinsic))
        : outcome (list string) :=
      match es with
      | [] => Return []
      | (k, v) :: r =>
          e ← generateExpressionValueMappingKind v;
          rest ← entriesText r;
          Return ((quoted k +:+ ": " +:+ interpolate e) :: rest)
      end in
  let generateExpressionValueMapping (vm : list (string * ValueMappingKind Intrinsic))
      : outcome string :=
    es ← entriesText vm;
    Return ("{" +:+ nl +:+ "  " +:+ join ("," +:+ nl) es +:+ nl +:+ "}") in
  let optionalValueMapping (vm : option (list (string * ValueMappingKind Intrinsic)))
      : outcome string :=
    match vm with
    | Some m => t ← generateExpressionValueMapping m; Return (", " +:+ t)
    | None => Return ""
    end in
  match i with
  | FigmaString figmaPropName =>
      Return ("figma.string(" +:+ quoted figmaPropName +:+ ")")
  | FigmaBoolean figmaPropName valueMapping =>
      t ← optionalValueMapping valueMapping;
      Return ("figma.boolean(" +:+ quoted figmaPropName +:+ t +:+ ")")
  | FigmaEnum figmaPropName valueMapping =>
      t ← optionalValueMapping valueMapping;
      Return ("figma.enum(" +:+ quoted figmaPropName +:+ t +:+ ")")
  | FigmaInstance figmaPropName =>
      Return ("figma.instance(" +:+ quoted figmaPropName +:+ ")")
  | FigmaChildren layers =>
      Return ("figma.children(" +:+
              (if Nat.ltb 1 (List.length layers)
               then "[" +:+ join ", " (List.map quoted layers) +:+ "]"
               else quoted (interpolate (List.head layers))) +:+ ")")
  | FigmaTextContent layer =>
      Return ("figma.textContent(" +:+ quoted layer +:+ ")")
  | FigmaOther kind _ =>
      Throw ("kind " +:+ kind +:+ " not supported for prop mapping")
  end.

(** ** Lines 95-123: one declaration from one design property *)

(** The local constant [isBooleanVariant] of line 108. *)
Definition isBooleanVariant (variantOptions : option (list string)) : bool :=
  match variantOptions with
  | Some options => Nat.eqb (List.length options) 2 && forallb isBooleanKind options
  | None => false
  end.

(** The entry a variant option gets in the value mapping of an enum. *)
Definition variantEntry (value : string) : string :=
  "  " +:+ quoted value +:+ ": " +:+ quoted (normalizePropValue value).

Definition generateSinglePropMappingFromFigmaProp
    (P : Platform) (propName : string) (propDef : ComponentPropertyDefinition)
    : option string :=
  let codePropName := generateCodePropName P propName in
  let figmaPropName := normalizePropName propName in
  match type propDef with
  | BOOLEAN =>
      Some (quoted codePropName +:+ ": figma.boolean('" +:+ figmaPropName +:+ "')")
  | TEXT =>
      Some (quoted codePropName +:+ ": figma.string('" +:+ figmaPropName +:+ "')")
  | VARIANT =>
      if isBooleanVariant (variantOptions propDef)
      then Some (quoted codePropName +:+ ": figma.boolean('" +:+ figmaPropName +:+ "')")
      else Some (quoted codePropName +:+ ": figma.enum('" +:+ figmaPropName +:+ "', { "
                 +:+ nl +:+
                 interpolate (option_map (fun options => join ("," +:+ nl) (List.map variantEntry options))
                                         (variantOptions propDef))
                 +:+ "})")
  | INSTANCE_SWAP =>
      Some (quoted codePropName +:+ ": figma.instance('" +:+ figmaPropName +:+ "')")
  | OtherType _ => None
  end.

(** [if (propMapping) props.push(propMapping)]: [null] and [""] are falsy. *)
Definition pushIfTruthy (declaration : option string) : list string :=
  match declaration with
  | Some d => if truthy d then [d] else []
  | None => []
  end.

(** ** Lines 125-136: the design properties a mapping refers to *)

(** [typeof v === 'object'] *)
Definition isObject (v : JsValue) : bool :=
  match v with
  | JObject _ => true
  | _ => false
  end.

(** The comparison of [Set]: primitives by value; two object values met in a
    traversal of a tree are two references, hence different. *)
Definition sameValueZero (a b : JsValue) : bool :=
  match a, b with
  | JUndefined, JUndefined => true
  | JBoolean x, JBoolean y => Bool.eqb x y
  | JNumber x, JNumber y => String.eqb x y
  | JString x, JString y => String.eqb x y
  | _, _ => false
  end.

(** [new Set(values)]: the values in the order they were first met. *)
Fixpoint newSet (values : list JsValue) : list JsValue :=
  match values with
  | [] => []
  | v :: r => v :: List.filter (fun w => negb (sameValueZero v w)) (newSet r)
  end.

(** [set.has(name)] *)
Definition setHas (set : list JsValue) (name : string) : bool :=
  existsb (sameValueZero (JString name)) set.

Fixpoint getSetOfAllPropsReferencedInPropMapping (obj : JsValue) : list JsValue :=
  match obj with
  | JObject entries =>
      newSet
        ((fix forEachEntry (es : list (string * JsValue)) : list JsValue :=
            match es with
            | [] => []
            | (k, v) :: r =>
                (if String.eqb k "figmaPropName" then [v] else []) ++
                (if isObject v then getSetOfAllPropsReferencedInPropMapping v else []) ++
                forEachEntry r
            end) entries)
  | _ => []
  end.

(** The array [[x0, x1, ...]] as an object: its entries are keyed by index. *)
Fixpoint arrayEntries (from : nat) (l : list string) : list (string * JsValue) :=
  match l with
  | [] => []
  | x :: r => (pretty from, JString x) :: arrayEntries (S from) r
  end.

(** The object an intrinsic is at run time: [{kind, args}]. *)
Fixpoint objectOfIntrinsic (i : Intrinsic) : JsValue :=
  let objectOfValue (v : ValueMappingKind Intrinsic) : JsValue :=
    match v with
    | VIntrinsic i' => objectOfIntrinsic i'
    | VString s => JString s
    | VNumber text => JNumber text
    | VBoolean b => JBoolean b
    | VUndefined => JUndefined
    end in
  let objectOfValueMapping :=
    fix objectOfValueMapping (vm : list (string * ValueMappingKind Intrinsic))
        : list (string * JsValue) :=
      match vm with
      | [] => []
      | (k, v) :: r => (k, objectOfValue v) :: objectOfValueMapping r
      end in
  let withValueMapping (figmaPropName : string)
      (vm : option (list (string * ValueMappingKind Intrinsic))) : JsValue :=
    JObject (("figmaPropName", JString figmaPropName) ::
             match vm with
             | Some m => [("valueMapping", JObject (objectOfValueMapping m))]
             | None => []
             end) in
  let args :=
    match i with
    | FigmaString figmaPropName => JObject [("figmaPropName", JString figmaPropName)]
    | FigmaBoolean figmaPropName valueMapping => withValueMapping figmaPropName valueMapping
    | FigmaEnum figmaPropName valueMapping => withValueMapping figmaPropName valueMapping
    | FigmaInstance figmaPropName => JObject [("figmaPropName", JString figmaPropName)]
    | FigmaChildren layers => JObject [("layers", JObject (arrayEntries 0 layers))]
    | FigmaTextContent layer => JObject [("layer", JString layer)]
    | FigmaOther _ args => args
    end in
  JObject [("kind", JString (kindName (kindOf i))); ("args", args)].

(** The object a prop mapping is at run time. *)
Definition objectOfPropMapping (propMapping : PropMapping) : JsValue :=
  JObject (List.map (fun e => (fst e, objectOfIntrinsic (snd e))) propMapping).

(** ** Lines 138-177: props from an explicit mapping *)

(** The loop of lines 145-150. *)
Fixpoint mappedPropsOf (propMapping : PropMapping) : outcome (list string) :=
  match propMapping with
  | [] => Return []
  | (propName, intrinsic) :: r =>
      expr ← generateExpressionFromIntrinsic intrinsic;
      rest ← mappedPropsOf r;
      Return (if truthy expr then (quoted propName +:+ ": " +:+ expr) :: rest else rest)
  end.

(** The loop of lines 152-160. *)
Definition unmappedPropsOf (P : Platform) (c : Component) (propMapping : PropMapping)
    : list string :=
  let usedFigmaPropsSet :=
    getSetOfAllPropsReferencedInPropMapping (objectOfPropMapping propMapping) in
  flat_map
    (fun e : string * ComponentPropertyDefinition =>
       if negb (setHas usedFigmaPropsSet (fst e))
       then pushIfTruthy (generateSinglePropMappingFromFigmaProp P (fst e) (snd e))
       else [])
    (componentPropertyDefinitions c).

Definition generatePropsFromMapping (P : Platform) (c : Component) (propMapping : PropMapping)
    : outcome string :=
  mappedProps ← mappedPropsOf propMapping;
  let unmappedProps := unmappedPropsOf P c propMapping in
  Return ("{" +:+ nl +:+
          "  // These props were automatically mapped based on your linked code:" +:+ nl +:+
          "  " +:+ join ("," +:+ nl) mappedProps +:+ "," +:+ nl +:+
          "  " +:+
          (match unmappedProps with
           | _ :: _ =>
               "// No matching props could be found for these Figma properties:" +:+ nl +:+
               "  " +:+ join ("," +:+ nl) (List.map (fun prop => "// " +:+ prop) unmappedProps)
           | [] => ""
           end) +:+ nl +:+
          "  }").

(** ** Lines 179-197: props with no mapping *)

(** The loop of lines 188-193.  The property definitions of a component are
    a mapping that is always there ([Component]), so the guard of line 181
    is the test for no entry. *)
Definition autoPropsOf (P : Platform) (c : Component) : list string :=
  flat_map
    (fun e : string * ComponentPropertyDefinition =>
       pushIfTruthy (generateSinglePropMappingFromFigmaProp P (fst e) (snd e)))
    (componentPropertyDefinitions c).

Definition generateProps (P : Platform) (c : Component) : string :=
  match componentPropertyDefinitions c with
  | [] => "{}"
  | _ :: _ =>
      "{" +:+ nl +:+ "  " +:+ join ("," +:+ nl +:+ "  ") (autoPropsOf P c) +:+ nl +:+ "}"
  end.

(** ** Lines 199-229: the import path *)

(** [s.replace(/\.(jsx|tsx)$/, '')] *)
Fixpoint dropJsxTsxExtension (s : string) : string :=
  match s with
  | EmptyString => EmptyString
  | String c r =>
      if String.eqb s ".jsx" || String.eqb s ".tsx"
      then EmptyString
      else String c (dropJsxTsxExtension r)
  end.

Definition formatImportPath (P : Platform) (systemPath : string) : string :=
  let formattedImportPath := replaceAll (path_sep P) "/" systemPath in
  let formattedImportPath :=
    if negb (startsWithDot formattedImportPath)
    then "./" +:+ formattedImportPath
    else formattedImportPath in
  dropJsxTsxExtension formattedImportPath.

Definition getImportsPath (P : Platform)
    (codeConnectFilePath : string) (sourceFilepath : option string)
    (normalizedName : string) : string :=
  match sourceFilepath with
  | Some source =>
      if negb (truthy source) then "./" +:+ normalizedName
      else
        let codeConnectFolder := path_dirname P codeConnectFilePath in
        let pathToComponentFile := path_relative P codeConnectFolder source in
        formatImportPath P pathToComponentFile
  | None => "./" +:+ normalizedName
  end.

(** ** The file system *)

Inductive FsNode : Type :=
| File (content : string)
| Directory.

Abbreviation FileSystem := (gmap string FsNode).

(** [fs.existsSync] *)
Definition existsSync (fs : FileSystem) (p : string) : bool :=
  bool_decide (is_Some (fs !! p)).

(** A directory and the directories above it, nearest first; [path.dirname]
    shortens a path until it reaches a root, which is its own parent. *)
Fixpoint ancestors (P : Platform) (fuel : nat) (dir : string) : list string :=
  match fuel with
  | O => []
  | S n =>
      dir :: (if String.eqb (path_dirname P dir) dir then []
              else ancestors P n (path_dirname P dir))
  end.

(** A regular file is at [p]. *)
Definition isFile (fs : FileSystem) (p : string) : bool :=
  match fs !! p with
  | Some (File _) => true
  | _ => false
  end.

(** Making one directory where none of the path is a regular file: what
    exists is left alone. *)
Definition mkdirStep (d : string) (m : FileSystem) : FileSystem :=
  match m !! d with
  | Some _ => m
  | None => <[d := Directory]> m
  end.

(** The directories [mkdirSync(dir, { recursive: true })] makes sure of:
    [dir] and the directories above it. *)
Definition directoriesTo (P : Platform) (dir : string) : list string :=
  ancestors P (S (String.length dir)) dir.

(** [fs.mkdirSync(dir, { recursive: true })]: it throws EEXIST when [dir] is
    a regular file and ENOTDIR when a directory above it is one; otherwise
    it makes the directories that are missing. *)
Definition mkdirSync (P : Platform) (dir : string) (fs : FileSystem)
    : outcome FileSystem :=
  if isFile fs dir
  then Throw ("EEXIST: file already exists, mkdir '" +:+ dir +:+ "'")
  else if existsb (isFile fs) (directoriesTo P dir)
  then Throw ("ENOTDIR: not a directory, mkdir '" +:+ dir +:+ "'")
  else Return (foldr mkdirStep fs (directoriesTo P dir)).

(** [fs.writeFileSync(p, text)]: it throws EISDIR when [p] is a directory,
    and ENOENT or ENOTDIR when the directory of [p] is missing or is a
    regular file; otherwise [p] holds [text] afterwards. *)
Definition writeFileSync (P : Platform) (p : string) (text : string)
    (fs : FileSystem) : outcome FileSystem :=
  match fs !! p with
  | Some Directory =>
      Throw ("EISDIR: illegal operation on a directory, open '" +:+ p +:+ "'")
  | _ =>
      match fs !! path_dirname P p with
      | Some Directory => Return (<[p := File text]> fs)
      | Some (File _) => Throw ("ENOTDIR: not a directory, open '" +:+ p +:+ "'")
      | None => Throw ("ENOENT: no such file or directory, open '" +:+ p +:+ "'")
      end
  end.

(** ** Lines 231-307: createReactCodeConnect *)

(** The constant [sourceFilename] of line 238. *)
Definition sourceFilenameOf (P : Platform) (payload : CreateRequestPayload) : string :=
  match sourceFilepath payload with
  | Some source =>
      if truthy source then beforeFirstDot (path_parse_name P source)
      else normalizedName (component payload)
  | None => normalizedName (component payload)
  end.

(** The constant [filePath] of line 242. *)
Definition filePathOf (P : Platform) (payload : CreateRequestPayload) : string :=
  getOutFileName P (destinationFile payload) (destinationDir payload)
                 (sourceFilenameOf P payload) "tsx".

(** The constant [importsPath] of line 249. *)
Definition importsPathOf (P : Platform) (payload : CreateRequestPayload) : string :=
  getImportsPath P (filePathOf P payload) (sourceFilepath payload)
                 (normalizedName (component payload)).

(** The constant [hasPropMapping] of line 255. *)
Definition hasPropMapping (payload : CreateRequestPayload) : bool :=
  match propMapping payload with
  | Some (_ :: _) => true
  | _ => false
  end.

(** [sourceExport === 'default'] *)
Definition isDefaultExport (sourceExport : option string) : bool :=
  match sourceExport with
  | Some e => String.eqb e "default"
  | None => false
  end.

(** The constant [importName] of line 257. *)
Definition importNameOf (P : Platform) (payload : CreateRequestPayload) : string :=
  match sourceFilepath payload, sourceExport payload with
  | Some source, Some export =>
      if truthy source && truthy export
      then
        if String.eqb export "default"
        then normalizeComponentName P (sourceFilenameOf P payload)
        else export
      else normalizedName (component payload)
  | _, _ => normalizedName (component payload)
  end.

(** The import clause of line 266. *)
Definition importClauseOf (P : Platform) (payload : CreateRequestPayload) : string :=
  if isDefaultExport (sourceExport payload)
  then importNameOf P payload
  else "{ " +:+ importNameOf P payload +:+ " }".

Definition mappingComment : string :=
  "/**" +:+ nl +:+
  " * -- This file was auto-generated by Code Connect --" +:+ nl +:+
  " * `props` includes a mapping from your code props to Figma properties." +:+ nl +:+
  " * You should check this is correct, and update the `example` function" +:+ nl +:+
  " * to return the code example you'd like to see in Figma" +:+ nl +:+
  "*/".

Definition suggestionComment : string :=
  "/**" +:+ nl +:+
  " * -- This file was auto-generated by Code Connect --" +:+ nl +:+
  " * `props` includes a mapping from Figma properties and variants to" +:+ nl +:+
  " * suggested values. You should update this to match the props of your" +:+ nl +:+
  " * code component, and update the `example` function to return the" +:+ nl +:+
  " * code example you'd like to see in Figma" +:+ nl +:+
  "*/".

(** The props of line 287. *)
Definition propsOf (P : Platform) (payload : CreateRequestPayload) : outcome string :=
  match propMapping payload with
  | Some (e :: r) => generatePropsFromMapping P (component payload) (e :: r)
  | _ => Return (generateProps P (component payload))
  end.

(** The template [codeConnect] of line 264. *)
Definition codeConnectOf (P : Platform) (payload : CreateRequestPayload) : outcome string :=
  props ← propsOf P payload;
  Return (nl +:+
          "import React from 'react'" +:+ nl +:+
          "import " +:+ importClauseOf P payload +:+ " from '" +:+ importsPathOf P payload +:+ "'" +:+ nl +:+
          "import figma from '@figma/code-connect'" +:+ nl +:+
          nl +:+
          (if hasPropMapping payload then mappingComment else suggestionComment) +:+ nl +:+
          nl +:+
          "figma.connect(" +:+ importNameOf P payload +:+ ", " +:+
            quoted (figmaNodeUrl (component payload)) +:+ ", {" +:+ nl +:+
          "  props: " +:+ props +:+ "," +:+ nl +:+
          "  example: (props) => <" +:+ importNameOf P payload +:+ " />" +:+ nl +:+
          "})" +:+ nl).

Definition conflictMessage (filePath : string) : Message :=
  {| message := "File " +:+ filePath +:+ " already exists, skipping creation";
     level := ERROR |}.

(** The constant [formatted] of line 291. *)
Definition formattedOf (P : Platform) (payload : CreateRequestPayload) : outcome string :=
  codeConnect ← codeConnectOf P payload;
  prettier_format P codeConnect.

(** The call on a file system: the completion and the file system it
    leaves. *)
Definition createReactCodeConnect (P : Platform) (payload : CreateRequestPayload)
    (fs : FileSystem) : outcome CreateResponsePayload * FileSystem :=
  let filePath := filePathOf P payload in
  match formattedOf P payload with
  | Throw e => (Throw e, fs)
  | Return formatted =>
      if existsSync fs filePath
      then (Return {| createdFiles := []; messages := [conflictMessage filePath] |}, fs)
      else
        match mkdirSync P (path_dirname P filePath) fs with
        | Throw e => (Throw e, fs)
        | Return fs =>
            match writeFileSync P filePath formatted fs with
            | Throw e => (Throw e, fs)
            | Return fs =>
                (Return {| createdFiles := [{| filePath := filePath |}];
                           messages := [] |}, fs)
            end
        end
  end.

(** ** A platform to run the examples on

    POSIX paths below a working directory [/work], and plain stand-ins for
    the collaborators whose code is elsewhere.  The theorems do not depend
    on it. *)

Fixpoint splitOn (c : ascii) (s : string) : list string :=
  match s with
  | EmptyString => [EmptyString]
  | String d r =>
      if Ascii.eqb d c then EmptyString :: splitOn c r
      else match splitOn c r with
           | w :: ws => String d w :: ws
           | [] => [String d EmptyString]
           end
  end.

(** The segments of a path; empty segments and [.] do not count. *)
Definition segments (p : string) : list string :=
  List.filter (fun w => truthy w && negb (String.eqb w ".")) (splitOn "/" p).

Definition isAbsolute (p : string) : bool :=
  match p with
  | String c _ => Ascii.eqb c "/"
  | EmptyString => false
  end.

(** [path.resolve] for paths without [..]. *)
Definition resolve (p : string) : list string :=
  if isAbsolute p then segments p else "work" :: segments p.

Fixpoint dropCommon (from to : list string) : list string * list string :=
  match from, to with
  | f :: fr, t :: tr => if String.eqb f t then dropCommon fr tr else (from, to)
  | _, _ => (from, to)
  end.

Definition posixRelative (from to : string) : string :=
  let (up, down) := dropCommon (resolve from) (resolve to) in
  join "/" (List.map (fun _ => "..") up ++ down).

Definition posixDirname (p : string) : string :=
  match List.removelast (segments p) with
  | [] => if isAbsolute p then "/" else "."
  | dirs => (if isAbsolute p then "/" else "") +:+ join "/" dirs
  end.

(** The units before the last dot of a base name; a leading dot is part of
    the name. *)
Fixpoint beforeLastDot (s : string) : string :=
  match s with
  | EmptyString => EmptyString
  | String c r =>
      if Ascii.eqb c "." && allString (fun d => negb (Ascii.eqb d ".")) r
      then EmptyString
      else String c (beforeLastDot r)
  end.

Definition posixParseName (p : string) : string :=
  match List.last (segments p) "" with
  | String c r => String c (beforeLastDot r)
  | EmptyString => EmptyString
  end.

Definition upperChar (c : ascii) : ascii :=
  if isLower c then ascii_of_nat (nat_of_ascii c - 32) else c.

Definition capitalize (w : string) : string :=
  match w with
  | String c r => String (upperChar c) (toLowerCase r)
  | EmptyString => EmptyString
  end.

(** Camel case of words separated by spaces. *)
Definition camelCaseOfWords (s : string) : string :=
  match List.filter truthy (splitOn " " s) with
  | [] => ""
  | w :: ws => toLowerCase w +:+ join "" (List.map capitalize ws)
  end.

Definition examplePlatform : Platform := {|
  path_sep := "/";
  path_dirname := posixDirname;
  path_relative := posixRelative;
  path_parse_name := posixParseName;
  camelCase := camelCaseOfWords;
  normalizeComponentName := filterString isAlnum;
  getOutFileName := fun outFile outDir sourceFilename extension =>
    if given outFile then interpolate outFile
    else (if given outDir then interpolate outDir else "/work") +:+ "/" +:+
         sourceFilename +:+ ".figma." +:+ extension;
  prettier_format := Return
|}.

(** ** The inner functions of the renderer, by name *)

Definition generateExpressionValueMappingKind (v : ValueMappingKind Intrinsic)
    : outcome (option string) :=
  match v with
  | VIntrinsic i => e ← generateExpressionFromIntrinsic i; Return (Some e)
  | VString s => Return (Some (quoted s))
  | VNumber text => Return (Some text)
  | VBoolean b => Return (Some (booleanText b))
  | VUndefined => Return (Some "undefined")
  end.

Fixpoint valueMappingEntries (es : list (string * ValueMappingKind Intrinsic))
    : outcome (list string) :=
  match es with
  | [] => Return []
  | (k, v) :: r =>
      e ← generateExpressionValueMappingKind v;
      rest ← valueMappingEntries r;
      Return ((quoted k +:+ ": " +:+ interpolate e) :: rest)
  end.

Definition generateExpressionValueMapping (vm : list (string * ValueMappingKind Intrinsic))
    : outcome string :=
  es ← valueMappingEntries vm;
  Return ("{" +:+ nl +:+ "  " +:+ join ("," +:+ nl) es +:+ nl +:+ "}").

(** The values the loop of line 127 pushes for the entries of an object. *)
Fixpoint pushedValues (es : list (string * JsValue)) : list JsValue :=
  match es with
  | [] => []
  | (k, v) :: r =>
      (if String.eqb k "figmaPropName" then [v] else []) ++
      (if isObject v then getSetOfAllPropsReferencedInPropMapping v else []) ++
      pushedValues r
  end.

Definition objectOfValue (v : ValueMappingKind Intrinsic) : JsValue :=
  match v with
  | VIntrinsic i => objectOfIntrinsic i
  | VString s => JString s
  | VNumber text => JNumber text
  | VBoolean b => JBoolean b
  | VUndefined => JUndefined
  end.

Fixpoint objectOfValueMapping (vm : list (string * ValueMappingKind Intrinsic))
    : list (string * JsValue) :=
  match vm with
  | [] => []
  | (k, v) :: r => (k, objectOfValue v) :: objectOfValueMapping r
  end.

(** Induction on the tree of a value. *)
Fixpoint JsValue_tree_ind (Q : JsValue -> Prop)
    (Hundefined : Q JUndefined)
    (Hboolean : forall b, Q (JBoolean b))
    (Hnumber : forall text, Q (JNumber text))
    (Hstring : forall s, Q (JString s))
    (Hobject : forall entries, Forall (fun e => Q (snd e)) entries -> Q (JObject entries))
    (v : JsValue) : Q v :=
  match v with
  | JUndefined => Hundefined
  | JBoolean b => Hboolean b
  | JNumber text => Hnumber text
  | JString s => Hstring s
  | JObject entries =>
      Hobject entries
        ((fix all (es : list (string * JsValue)) : Forall (fun e => Q (snd e)) es :=
            match es return Forall (fun e => Q (snd e)) es with
            | [] => @List.Forall_nil _ (fun e => Q (snd e))
            | (k, child) :: r =>
                @List.Forall_cons _ (fun e => Q (snd e)) (k, child) r
                  (JsValue_tree_ind Q Hundefined Hboolean Hnumber Hstring Hobject child)
                  (all r)
            end) entries)
  end.

(** Every intrinsic of the tree, nested ones included, is of a kind the
    renderer has a case for. *)
Fixpoint onlySupportedKinds (i : Intrinsic) : bool :=
  let nested :=
    fix nested (es : list (string * ValueMappingKind Intrinsic)) : bool :=
      match es with
      | [] => true
      | (_, VIntrinsic i') :: r => onlySupportedKinds i' && nested r
      | _ :: r => nested r
      end in
  match i with
  | FigmaBoolean _ (Some vm) => nested vm
  | FigmaEnum _ (Some vm) => nested vm
  | FigmaOther _ _ => false
  | _ => true
  end.

Fixpoint nestedSupported (es : list (string * ValueMappingKind Intrinsic)) : bool :=
  match es with
  | [] => true
  | (_, VIntrinsic i) :: r => onlySupportedKinds i && nestedSupported r
  | _ :: r => nestedSupported r
  end.

(** [Q] holds of the intrinsics nested in a value mapping. *)
Definition nestedAll (Q : Intrinsic -> Prop)
    (vm : option (list (string * ValueMappingKind Intrinsic))) : Prop :=
  match vm with
  | Some m =>
      Forall (fun e => match snd e with VIntrinsic i => Q i | _ => True end) m
  | None => True
  end.

(** Induction on the tree of an intrinsic. *)
Fixpoint Intrinsic_tree_ind (Q : Intrinsic -> Prop)
    (Hstring : forall p, Q (FigmaString p))
    (Hboolean : forall p vm, nestedAll Q vm -> Q (FigmaBoolean p vm))
    (Henum : forall p vm, nestedAll Q vm -> Q (FigmaEnum p vm))
    (Hinstance : forall p, Q (FigmaInstance p))
    (Hchildren : forall layers, Q (FigmaChildren layers))
    (HtextContent : forall layer, Q (FigmaTextContent layer))
    (Hother : forall kind args, Q (FigmaOther kind args))
    (i : Intrinsic) : Q i :=
  let nested (vm : option (list (string * ValueMappingKind Intrinsic))) : nestedAll Q vm :=
    match vm return nestedAll Q vm with
    | Some m =>
        (fix all (es : list (string * ValueMappingKind Intrinsic))
           : Forall (fun e => match snd e with VIntrinsic i => Q i | _ => True end) es :=
           match es return
                 Forall (fun e => match snd e with VIntrinsic i => Q i | _ => True end) es
           with
           | [] => @List.Forall_nil _ _
           | (k, v) :: r =>
               @List.Forall_cons _
                 (fun e => match snd e with VIntrinsic i => Q i | _ => True end)
                 (k, v) r
                 (match v return match v with VIntrinsic i => Q i | _ => True end with
                  | VIntrinsic i' =>
                      Intrinsic_tree_ind Q Hstring Hboolean Henum Hinstance Hchildren
                                         HtextContent Hother i'
                  | _ => I
                  end)
                 (all r)
           end) m
    | None => I
    end in
  match i with
  | FigmaString p => Hstring p
  | FigmaBoolean p vm => Hboolean p vm (nested vm)
  | FigmaEnum p vm => Henum p vm (nested vm)
  | FigmaInstance p => Hinstance p
  | FigmaChildren layers => Hchildren layers
  | FigmaTextContent layer => HtextContent layer
  | FigmaOther kind args => Hother kind args
  end.

(** ** The vocabulary of the specification *)

Definition booleanVocabulary : list string :=
  ["true"; "false"; "yes"; "no"; "on"; "off"].

(** Two strings are equal when case is ignored. *)
Definition equalIgnoringCase (a b : string) : Prop :=
  toLowerCase a = toLowerCase b.

Definition isBooleanWord (s : string) : Prop :=
  exists w, In w booleanVocabulary /\ equalIgnoringCase s w.


Definition hasNoHash (s : string) : Prop :=
  allString (fun c => negb (Ascii.eqb c "#")) s = true.

(** The shape [#<digits>[:<digits>]*] of a node-id annotation: after the
    ['#'], groups of one or more digits separated by single colons.
    [afterDigit] tells whether the unit before was a digit. *)
Fixpoint isDigitGroups (afterDigit : bool) (s : string) : bool :=
  match s with
  | EmptyString => afterDigit
  | String c r =>
      if isDigit c then isDigitGroups true r
      else Ascii.eqb c ":" && afterDigit && isDigitGroups false r
  end.

Definition isNodeIdAnnotation (s : string) : bool :=
  match s with
  | String c r => Ascii.eqb c "#" && isDigitGroups false r
  | EmptyString => false
  end.

(** A call of the binding library with the quoted design property name as
    its sole argument. *)
Definition soleArgument (callee figmaPropName : string) : string :=
  callee +:+ "(" +:+ quoted figmaPropName +:+ ")".

Definition supportedKind (k : IntrinsicKind) : bool :=
  match k with
  | KOther _ => false
  | _ => true
  end.

Definition supportedType (t : PropertyType) : bool :=
  match t with
  | OtherType _ => false
  | _ => true
  end.

(** The bindings of the table of the auto-mapping generator. *)
Inductive Binding : Type :=
| BooleanBinding
| StringBinding
| EnumBinding (valueMapping : list (string * string))
| InstanceBinding.

(** The slug of a variant option: every unit that is not a letter or a digit
    becomes ['-'], every letter is lower-cased. *)
Definition valueSlug (s : string) : string :=
  mapString (fun c => if isAlnum c then lowerChar c else "-"%char) s.

(** The table, row by row. *)
Definition bindingOf (propDef : ComponentPropertyDefinition) : option Binding :=
  match type propDef with
  | BOOLEAN => Some BooleanBinding
  | TEXT => Some StringBinding
  | VARIANT =>
      if isBooleanVariant (variantOptions propDef) then Some BooleanBinding
      else Some (EnumBinding (List.map (fun o => (o, valueSlug o))
                                       (default [] (variantOptions propDef))))
  | INSTANCE_SWAP => Some InstanceBinding
  | OtherType _ => None
  end.

Definition bindingText (figmaPropName : string) (b : Binding) : string :=
  match b with
  | BooleanBinding => "figma.boolean('" +:+ figmaPropName +:+ "')"
  | StringBinding => "figma.string('" +:+ figmaPropName +:+ "')"
  | EnumBinding valueMapping =>
      "figma.enum('" +:+ figmaPropName +:+ "', { " +:+ nl +:+
      join ("," +:+ nl)
           (List.map (fun e => "  " +:+ quoted (fst e) +:+ ": " +:+ quoted (snd e))
                     valueMapping) +:+
      "})"
  | InstanceBinding => "figma.instance('" +:+ figmaPropName +:+ "')"
  end.

(** The declaration of a design property: its code name, then its binding on
    the normalized design name. *)
Definition declarationOf (P : Platform) (entry : string * ComponentPropertyDefinition)
    : option string :=
  option_map
    (fun b => quoted (generateCodePropName P (fst entry)) +:+ ": " +:+
              bindingText (normalizePropName (fst entry)) b)
    (bindingOf (snd entry)).

(** The invariant of the data model: a VARIANT property has its options. *)
Definition variantsHaveOptions (c : Component) : Prop :=
  forall name propDef,
    In (name, propDef) (componentPropertyDefinitions c) ->
    type propDef = VARIANT -> variantOptions propDef <> None.

(** [v] is the value of an attribute called [name] somewhere in the tree of
    an object, at any depth. *)
Inductive attributeValue (name : string) : JsValue -> JsValue -> Prop :=
| attribute_here entries v :
    In (name, v) entries -> attributeValue name (JObject entries) v
| attribute_below entries k child v :
    In (k, child) entries -> attributeValue name child v ->
    attributeValue name (JObject entries) v.

(** [name] is a [figmaPropName] of the intrinsic itself or of an intrinsic
    nested in its value mapping, at any depth. *)
Inductive refersTo (name : string) : Intrinsic -> Prop :=
| refers_string : refersTo name (FigmaString name)
| refers_boolean vm : refersTo name (FigmaBoolean name vm)
| refers_enum vm : refersTo name (FigmaEnum name vm)
| refers_instance : refersTo name (FigmaInstance name)
| refers_boolean_nested p vm k i :
    In (k, VIntrinsic i) vm -> refersTo name i -> refersTo name (FigmaBoolean p (Some vm))
| refers_enum_nested p vm k i :
    In (k, VIntrinsic i) vm -> refersTo name i -> refersTo name (FigmaEnum p (Some vm)).

Definition endsWith (s suffix : string) : Prop :=
  exists base, s = base +:+ suffix.

(** [stripped] is [s] without a trailing [.jsx] or [.tsx]. *)
Definition withoutJsxTsx (s stripped : string) : Prop :=
  s = stripped +:+ ".jsx" \/ s = stripped +:+ ".tsx" \/
  (stripped = s /\ ~ endsWith s ".jsx" /\ ~ endsWith s ".tsx").

(** ** Inputs of the examples *)

Definition plainProperty (t : PropertyType) : ComponentPropertyDefinition :=
  {| type := t; variantOptions := None |}.

Definition variantProperty (options : list string) : ComponentPropertyDefinition :=
  {| type := VARIANT; variantOptions := Some options |}.

(** A button with a boolean, a variant with a node id, a boolean-shaped
    variant, an instance swap and a property of a type that is not
    supported. *)
Definition buttonComponent : Component := {|
  normalizedName := "Button";
  figmaNodeUrl := "https://figma.com/design/abc?node-id=1-2";
  componentPropertyDefinitions :=
    [("Disabled", plainProperty BOOLEAN);
     ("Size#12:3", variantProperty ["Small"; "Large"]);
     ("Has Icon", variantProperty ["Yes"; "No"]);
     ("Icon", plainProperty INSTANCE_SWAP);
     ("Corner", plainProperty (OtherType "FLOAT"))]
|}.

(** A mapping that refers to the design properties A, at the top, and B,
    inside a value mapping; a component with the properties A, B and C. *)
Definition abMapping : PropMapping :=
  [("tone", FigmaEnum "A" (Some [("on", VIntrinsic (FigmaString "B")); ("off", VUndefined)]))].

Definition abcComponent : Component := {|
  normalizedName := "Card";
  figmaNodeUrl := "https://figma.com/design/abc?node-id=3-4";
  componentPropertyDefinitions :=
    [("A", variantProperty ["One"; "Two"]);
     ("B", plainProperty TEXT);
     ("C", plainProperty BOOLEAN)]
|}.

(** A mapping that names a text property without its node id. *)
Definition labelMapping : PropMapping := [("label", FigmaString "Text")].

Definition textComponent : Component := {|
  normalizedName := "Label";
  figmaNodeUrl := "https://figma.com/design/abc?node-id=5-6";
  componentPropertyDefinitions := [("Text#1:2", plainProperty TEXT)]
|}.

Definition payloadOf (c : Component) (destinationDir source export : option string)
    (pm : option PropMapping) : CreateRequestPayload := {|
  component := c;
  destinationFile := None;
  destinationDir := destinationDir;
  sourceFilepath := source;
  sourceExport := export;
  propMapping := pm
|}.

(** The button, from [/work/src/Button.tsx], bound in [/work/figma]. *)
Definition buttonPayload : CreateRequestPayload :=
  payloadOf buttonComponent (Some "/work/figma") (Some "/work/src/Button.tsx")
            (Some "default") None.

(** A payload whose source path is the empty string. *)
Definition emptySourcePayload : CreateRequestPayload :=
  payloadOf buttonComponent None (Some "") None None.

(** A payload whose source file is a [.ts] file. *)
Definition tsSourcePayload : CreateRequestPayload :=
  payloadOf buttonComponent (Some "/work/figma") (Some "/work/src/Button.ts") None None.

(** A payload with a named export and no source path. *)
Definition exportOnlyPayload : CreateRequestPayload :=
  payloadOf buttonComponent None None (Some "PrimaryButton") None.



(** ** Vocabulary of the further properties *)

(** The units of a slug: digits, lower-case letters and ['-']. *)
Definition isSlugUnit (c : ascii) : bool :=
  isDigit c || isLower c || Ascii.eqb c "-".

Definition hasNoDot (s : string) : Prop :=
  allString (fun c => negb (Ascii.eqb c ".")) s = true.

(** The one message the renderer throws. *)
Definition isKindError (e : string) : Prop :=
  exists kind, e = "kind " +:+ kind +:+ " not supported for prop mapping".

(** The intrinsic and the intrinsics nested in it are of the six kinds, and
    no key of their value mappings is the word [figmaPropName]. *)
Fixpoint hasPlainKeys (i : Intrinsic) : bool :=
  let nested :=
    fix nested (es : list (string * ValueMappingKind Intrinsic)) : bool :=
      match es with
      | [] => true
      | (k, v) :: r =>
          negb (String.eqb k "figmaPropName") &&
          match v with
          | VIntrinsic i' => hasPlainKeys i'
          | _ => true
          end &&
          nested r
      end in
  match i with
  | FigmaBoolean _ (Some vm) => nested vm
  | FigmaEnum _ (Some vm) => nested vm
  | FigmaOther _ _ => false
  | _ => true
  end.

Fixpoint nestedPlainKeys (es : list (string * ValueMappingKind Intrinsic)) : bool :=
  match es with
  | [] => true
  | (k, v) :: r =>
      negb (String.eqb k "figmaPropName") &&
      match v with
      | VIntrinsic i => hasPlainKeys i
      | _ => true
      end &&
      nestedPlainKeys r
  end.

(** The platform of the examples with the separator of Windows. *)
Definition backslashPlatform : Platform := {|
  path_sep := "\";
  path_dirname := path_dirname examplePlatform;
  path_relative := path_relative examplePlatform;
  path_parse_name := path_parse_name examplePlatform;
  camelCase := camelCase examplePlatform;
  normalizeComponentName := normalizeComponentName examplePlatform;
  getOutFileName := getOutFileName examplePlatform;
  prettier_format := prettier_format examplePlatform
|}.

(** * Verification *)

(** ** Text *)

#[local] Arguments String.append !_ _ / : simpl nomatch.

Lemma append_empty_r (s : string) : s +:+ "" = s.
Proof. induction s as [|c s IH]; simpl; [reflexivity | now rewrite IH]. Qed.

Lemma append_assoc (a b c : string) : (a +:+ b) +:+ c = a +:+ (b +:+ c).
Proof. induction a as [|x a IH]; simpl; [reflexivity | now rewrite IH]. Qed.

Lemma append_inv_head (a b c : string) : a +:+ b = a +:+ c -> b = c.
Proof.
  induction a as [|x a IH]; simpl; intros H; [exact H|].
  injection H as H. now apply IH.
Qed.

Lemma truthy_true (s : string) : truthy s = true <-> s <> "".
Proof.
  unfold truthy. destruct (String.eqb_spec s ""); simpl; split; intros; congruence.
Qed.

Lemma truthy_append_l (c : ascii) (a b : string) : truthy (String c a +:+ b) = true.
Proof. reflexivity. Qed.

Lemma digitOrColon_not_hash (c : ascii) :
  isDigitOrColon c = true -> Ascii.eqb c "#" = false.
Proof.
  destruct (Ascii.eqb_spec c "#") as [->|]; [discriminate | reflexivity].
Qed.

(** ** Lines 16-26 and 108: the classifier of boolean variants *)

Lemma isBooleanKind_spec (s : string) :
  isBooleanKind s = true <-> isBooleanWord s.
Proof.
  unfold isBooleanKind, isBooleanWord, equalIgnoringCase, booleanVocabulary.
  split.
  - intros H.
    exists (toLowerCase s).
    repeat (apply orb_true_iff in H; destruct H as [H|H]);
      apply String.eqb_eq in H; rewrite H;
      (split; [simpl; tauto | reflexivity]).
  - intros (w & Hw & ->). simpl in Hw.
    repeat (destruct Hw as [<-|Hw]; [reflexivity|]). contradiction.
Qed.

(** C3.  The classifier of line 108 answers true exactly for a sequence of
    two options that are both, case ignored, one of true, false, yes, no, on,
    off; for an absent sequence, a sequence of another length or one with a
    word outside the vocabulary it answers false. *)
Theorem isBooleanVariant_iff (options : option (list string)) :
  isBooleanVariant options = true <->
  exists a b, options = Some [a; b] /\ isBooleanWord a /\ isBooleanWord b.
Proof.
  split.
  - destruct options as [[|a [|b [|c l]]]|]; simpl; try discriminate.
    intros H. apply andb_true_iff in H as [Ha H].
    apply andb_true_iff in H as [Hb _].
    exists a, b. split; [reflexivity|].
    split; now apply isBooleanKind_spec.
  - intros (a & b & -> & Ha & Hb). simpl.
    apply isBooleanKind_spec in Ha, Hb. now rewrite Ha, Hb.
Qed.

Lemma isBooleanVariant_yes_no : isBooleanVariant (Some ["Yes"; "NO"]) = true.
Proof.
  apply isBooleanVariant_iff. exists "Yes", "NO". split; [reflexivity|].
  split; [exists "yes" | exists "no"]; (split; [simpl; tauto | reflexivity]).
Defined.

Example isBooleanVariant_mixed_case :
  isBooleanVariant (Some ["Yes"; "NO"]) = true /\
  isBooleanVariant (Some ["Small"; "Large"]) = false /\
  isBooleanVariant (Some ["true"; "maybe"]) = false /\
  isBooleanVariant (Some ["on"]) = false /\
  isBooleanVariant (Some ["on"; "off"; "yes"]) = false /\
  isBooleanVariant None = false.
Proof. repeat split; reflexivity. Qed.

(** ** Lines 28-40: node ids in property names *)

Lemma dropNodeIds_no_hash (s : string) :
  hasNoHash s -> dropNodeIds false s = s.
Proof.
  unfold hasNoHash. induction s as [|c s IH]; simpl; [reflexivity|].
  intros H. apply andb_true_iff in H as [Hc Hs].
  apply negb_true_iff in Hc. rewrite Hc. simpl. now rewrite IH.
Qed.

Lemma dropNodeIds_in_match (r : string) :
  allString isDigitOrColon r = true -> dropNodeIds true r = "".
Proof.
  induction r as [|c r IH]; simpl; [reflexivity|].
  intros H. apply andb_true_iff in H as [Hc Hr].
  rewrite (digitOrColon_not_hash c Hc), Hc. now apply IH.
Qed.

Lemma dropNodeIds_append (base rest : string) :
  hasNoHash base ->
  dropNodeIds false (base +:+ String "#" rest) = base +:+ dropNodeIds true rest.
Proof.
  unfold hasNoHash. induction base as [|c base IH]; simpl; [reflexivity|].
  intros H. apply andb_true_iff in H as [Hc Hs].
  apply negb_true_iff in Hc. rewrite Hc. simpl. now rewrite IH.
Qed.

Lemma digitGroups_digits_or_colons (r : string) (afterDigit : bool) :
  isDigitGroups afterDigit r = true -> allString isDigitOrColon r = true.
Proof.
  revert afterDigit. induction r as [|c r IH]; simpl; [reflexivity|].
  intros afterDigit H. unfold isDigitOrColon at 1.
  destruct (isDigit c); simpl.
  - eauto.
  - apply andb_true_iff in H as [H Hr]. apply andb_true_iff in H as [-> _].
    simpl. eauto.
Qed.

(** Where the name has no ['#'] of its own, the annotation is what goes. *)
Lemma normalizePropName_trailing_annotation (base annotation : string) :
  hasNoHash base -> isNodeIdAnnotation annotation = true ->
  normalizePropName (base +:+ annotation) = base.
Proof.
  intros Hbase Hann. destruct annotation as [|c r]; [discriminate|].
  simpl in Hann. apply andb_true_iff in Hann as [Hc Hr].
  apply Ascii.eqb_eq in Hc. subst c.
  unfold normalizePropName. rewrite dropNodeIds_append by exact Hbase.
  rewrite dropNodeIds_in_match by (eapply digitGroups_digits_or_colons; eauto).
  apply append_empty_r.
Qed.

Lemma normalizePropName_no_hash (name : string) :
  hasNoHash name -> normalizePropName name = name.
Proof. apply dropNodeIds_no_hash. Qed.

Lemma no_trailing_annotation_a_hash_b :
  forall base annotation,
    "a#b" = base +:+ annotation -> isNodeIdAnnotation annotation = false.
Proof.
  intros base annotation H.
  destruct base as [|c1 [|c2 [|c3 [|c4 base]]]]; simpl in H.
  - now subst annotation.
  - injection H as _ <-. reflexivity.
  - injection H as _ _ <-. reflexivity.
  - injection H as _ _ _ <-. reflexivity.
  - discriminate.
Qed.

(** C2.  [normalizePropName] removes every ['#'] and the digits and colons
    after it, wherever they are: a name with a ['#'] of its own loses more
    than its trailing annotation, and a name without annotation is changed.
    The pattern of [generateCodePropName], applied to the same names three
    lines above, removes the trailing annotation only. *)
Theorem normalizePropName_interior_hash :
  isNodeIdAnnotation "#12:3" = true /\
  normalizePropName ("Color #2" +:+ "#12:3") = "Color " /\
  dropTrailingNodeId ("Color #2" +:+ "#12:3") = "Color #2" /\
  normalizePropName "a#b" = "ab" /\
  dropTrailingNodeId "a#b" = "a#b".
Proof. repeat split; reflexivity. Qed.

(** ** Lines 47-93: the renderer *)

Lemma render_with_valueMapping (p : string)
    (vm : list (string * ValueMappingKind Intrinsic)) :
  (generateExpressionFromIntrinsic (FigmaBoolean p (Some vm)) =
     es ← valueMappingEntries vm;
     Return ("figma.boolean(" +:+ quoted p +:+ ", {" +:+ nl +:+ "  " +:+
             join ("," +:+ nl) es +:+ nl +:+ "})")) /\
  (generateExpressionFromIntrinsic (FigmaEnum p (Some vm)) =
     es ← valueMappingEntries vm;
     Return ("figma.enum(" +:+ quoted p +:+ ", {" +:+ nl +:+ "  " +:+
             join ("," +:+ nl) es +:+ nl +:+ "})")).
Proof.
  split.
  - change (generateExpressionFromIntrinsic (FigmaBoolean p (Some vm)))
      with (t ← (t ← generateExpressionValueMapping vm; Return (", " +:+ t));
            Return ("figma.boolean(" +:+ quoted p +:+ t +:+ ")")).
    unfold generateExpressionValueMapping.
    destruct (valueMappingEntries vm) as [es|e]; simpl; [|reflexivity].
    unfold mret, outcome_ret. f_equal. f_equal.
    rewrite !append_assoc. reflexivity.
  - change (generateExpressionFromIntrinsic (FigmaEnum p (Some vm)))
      with (t ← (t ← generateExpressionValueMapping vm; Return (", " +:+ t));
            Return ("figma.enum(" +:+ quoted p +:+ t +:+ ")")).
    unfold generateExpressionValueMapping.
    destruct (valueMappingEntries vm) as [es|e]; simpl; [|reflexivity].
    unfold mret, outcome_ret. f_equal. f_equal.
    rewrite !append_assoc. reflexivity.
Qed.

(** C4, as the code has it.  A Boolean or Enum intrinsic is rendered with
    the value-mapping object literal as second argument exactly when its
    valueMapping is present, with or without entries (a mapping without
    entries gives an object literal without entries); when the valueMapping
    is absent the quoted design property name is the sole argument. *)
Theorem valueMapping_rendered_when_present
    (p : string) (vm : list (string * ValueMappingKind Intrinsic)) :
  generateExpressionFromIntrinsic (FigmaBoolean p None) =
    Return (soleArgument "figma.boolean" p) /\
  generateExpressionFromIntrinsic (FigmaEnum p None) =
    Return (soleArgument "figma.enum" p) /\
  (generateExpressionFromIntrinsic (FigmaBoolean p (Some vm)) =
     es ← valueMappingEntries vm;
     Return ("figma.boolean(" +:+ quoted p +:+ ", {" +:+ nl +:+ "  " +:+
             join ("," +:+ nl) es +:+ nl +:+ "})")) /\
  (generateExpressionFromIntrinsic (FigmaEnum p (Some vm)) =
     es ← valueMappingEntries vm;
     Return ("figma.enum(" +:+ quoted p +:+ ", {" +:+ nl +:+ "  " +:+
             join ("," +:+ nl) es +:+ nl +:+ "})")) /\
  valueMappingEntries [] = Return [].
Proof.
  split; [reflexivity|]. split; [reflexivity|].
  split; [apply render_with_valueMapping|].
  split; [apply render_with_valueMapping | reflexivity].
Qed.

(** C4, as the specification has it, fails: a Boolean intrinsic whose
    valueMapping is present and has no entry is rendered with two
    arguments. *)
Lemma empty_valueMapping_is_rendered :
  generateExpressionFromIntrinsic (FigmaBoolean "Disabled" (Some [])) =
    Return ("figma.boolean(" +:+ quoted "Disabled" +:+ ", {" +:+ nl +:+ "  " +:+ nl +:+ "})") /\
  generateExpressionFromIntrinsic (FigmaBoolean "Disabled" (Some [])) <>
    Return (soleArgument "figma.boolean" "Disabled") /\
  generateExpressionFromIntrinsic (FigmaEnum "Size" (Some [])) <>
    Return (soleArgument "figma.enum" "Size").
Proof. split; [reflexivity|]. split; discriminate. Qed.

Example render_enum_nested :
  generateExpressionFromIntrinsic
    (FigmaEnum "Size" (Some [("Small", VString "sm");
                             ("Large", VIntrinsic (FigmaString "Label"));
                             ("Huge", VBoolean true)])) =
  Return ("figma.enum(" +:+ quoted "Size" +:+ ", {" +:+ nl +:+
          "  " +:+ quoted "Small" +:+ ": " +:+ quoted "sm" +:+ "," +:+ nl +:+
          quoted "Large" +:+ ": figma.string(" +:+ quoted "Label" +:+ ")," +:+ nl +:+
          quoted "Huge" +:+ ": true" +:+ nl +:+ "})").
Proof. reflexivity. Qed.

Lemma render_supported_shallow (i : Intrinsic) :
  match i with
  | FigmaString p => generateExpressionFromIntrinsic i = Return (soleArgument "figma.string" p)
  | FigmaInstance p => generateExpressionFromIntrinsic i = Return (soleArgument "figma.instance" p)
  | FigmaTextContent l => generateExpressionFromIntrinsic i = Return (soleArgument "figma.textContent" l)
  | FigmaChildren [l] => generateExpressionFromIntrinsic i = Return (soleArgument "figma.children" l)
  | _ => True
  end.
Proof. destruct i as [| | | |[|l [|l' ls]]| |]; try exact I; reflexivity. Qed.

(** An expression, when there is one, is never the empty string: the test of
    line 147 lets every rendered entry through. *)
Lemma rendered_truthy (i : Intrinsic) (e : string) :
  generateExpressionFromIntrinsic i = Return e -> truthy e = true.
Proof.
  destruct i as [p|p [vm|]|p [vm|]|p|layers|l|k a]; intros H.
  - injection H as <-. reflexivity.
  - rewrite (proj1 (render_with_valueMapping p vm)) in H.
    destruct (valueMappingEntries vm); [injection H as <-; reflexivity | discriminate].
  - injection H as <-. reflexivity.
  - rewrite (proj2 (render_with_valueMapping p vm)) in H.
    destruct (valueMappingEntries vm); [injection H as <-; reflexivity | discriminate].
  - injection H as <-. reflexivity.
  - injection H as <-. reflexivity.
  - injection H as <-. reflexivity.
  - injection H as <-. reflexivity.
  - discriminate.
Qed.

Lemma generatePropsFromMapping_throws (P : Platform) (c : Component)
    (pm : PropMapping) (e : string) :
  generatePropsFromMapping P c pm = Throw e <-> mappedPropsOf pm = Throw e.
Proof.
  unfold generatePropsFromMapping.
  destruct (mappedPropsOf pm) as [l|e']; simpl; split; intros H;
    try discriminate; injection H as ->; reflexivity.
Qed.

Lemma onlySupportedKinds_valueMapping (p : string)
    (vm : list (string * ValueMappingKind Intrinsic)) :
  onlySupportedKinds (FigmaBoolean p (Some vm)) = nestedSupported vm /\
  onlySupportedKinds (FigmaEnum p (Some vm)) = nestedSupported vm.
Proof. split; reflexivity. Qed.

Lemma valueMappingEntries_returns
    (Q := fun i => onlySupportedKinds i = true <->
                   exists e, generateExpressionFromIntrinsic i = Return e)
    (vm : list (string * ValueMappingKind Intrinsic)) :
  nestedAll Q (Some vm) ->
  nestedSupported vm = true <-> exists es, valueMappingEntries vm = Return es.
Proof.
  subst Q. unfold nestedAll. induction 1 as [|[k v] r Hv Hr IH]; simpl.
  - split; eauto.
  - destruct v as [i|s|t|b|]; simpl in *;
      try (rewrite IH; split; intros [es E]; [rewrite E; simpl; eauto|];
           destruct (valueMappingEntries r); [eauto | discriminate]).
    rewrite andb_true_iff, IH, Hv. split.
    + intros [[e E] [es Es]]. rewrite E, Es. simpl. eauto.
    + intros [es E].
      destruct (generateExpressionFromIntrinsic i); [|discriminate].
      destruct (valueMappingEntries r); [eauto | discriminate].
Qed.

(** The renderer returns an expression exactly for the intrinsics that are,
    with all the intrinsics nested in them, of the six kinds. *)
Lemma generateExpressionFromIntrinsic_returns (i : Intrinsic) :
  onlySupportedKinds i = true <->
  exists e, generateExpressionFromIntrinsic i = Return e.
Proof.
  induction i as [p|p [vm|] IH|p [vm|] IH|p|layers|layer|kind args]
    using Intrinsic_tree_ind;
    try (split; [intros _; eexists; reflexivity | reflexivity]).
  - rewrite (proj1 (onlySupportedKinds_valueMapping p vm)),
      (proj1 (render_with_valueMapping p vm)),
      (valueMappingEntries_returns vm IH).
    split; intros [x E]; [rewrite E; simpl; eauto|].
    destruct (valueMappingEntries vm); [eauto | discriminate].
  - rewrite (proj2 (onlySupportedKinds_valueMapping p vm)),
      (proj2 (render_with_valueMapping p vm)),
      (valueMappingEntries_returns vm IH).
    split; intros [x E]; [rewrite E; simpl; eauto|].
    destruct (valueMappingEntries vm); [eauto | discriminate].
  - split; [discriminate | intros [e E]; discriminate].
Qed.

(** The loop over the mapped entries throws only what the renderer throws
    on one of them. *)
Lemma mappedPropsOf_throws (pm : PropMapping) (e : string) :
  mappedPropsOf pm = Throw e ->
  exists code i, In (code, i) pm /\ generateExpressionFromIntrinsic i = Throw e.
Proof.
  induction pm as [|[code i] pm IH]; simpl; [discriminate|].
  destruct (generateExpressionFromIntrinsic i) as [expr|e'] eqn:E; simpl.
  - destruct (mappedPropsOf pm) as [l|e'']; simpl; [discriminate|].
    intros H. injection H as ->.
    destruct IH as (code' & i' & Hin & Hi); [reflexivity|].
    exists code', i'. auto.
  - intros H. injection H as ->. exists code, i. auto.
Qed.

Lemma mappedPropsOf_returns (pm : PropMapping) :
  (forall code i, In (code, i) pm -> onlySupportedKinds i = true) ->
  exists l, mappedPropsOf pm = Return l.
Proof.
  induction pm as [|[code i] pm IH]; intros H; simpl; [eauto|].
  destruct (proj1 (generateExpressionFromIntrinsic_returns i)) as [e ->];
    [apply (H code); now left|].
  destruct IH as [l ->]; [intros c j Hin; apply (H c); now right|].
  simpl. eauto.
Qed.

(** C5.  An intrinsic of a kind other than String, Boolean, Enum, Instance,
    Children and TextContent makes the renderer throw; the generator of
    props with no mapping never enters the renderer, so it always returns,
    and so does the props step of a payload that has no prop mapping. *)
Theorem unsupported_kind_throws :
  (forall i : Intrinsic,
      supportedKind (kindOf i) = false ->
      generateExpressionFromIntrinsic i =
        Throw ("kind " +:+ kindName (kindOf i) +:+ " not supported for prop mapping")) /\
  (forall (P : Platform) (payload : CreateRequestPayload),
      hasPropMapping payload = false ->
      propsOf P payload = Return (generateProps P (component payload))).
Proof.
  split.
  - intros i H. destruct i; try discriminate. reflexivity.
  - intros P payload H. unfold propsOf, hasPropMapping in *.
    destruct (propMapping payload) as [[|e r]|]; try reflexivity. discriminate.
Qed.

Lemma className_throws_and_auto_props_return :
  generateExpressionFromIntrinsic (FigmaOther "class-name" (JObject [])) =
    Throw "kind class-name not supported for prop mapping" /\
  propsOf examplePlatform buttonPayload =
    Return (generateProps examplePlatform buttonComponent).
Proof.
  split.
  - apply (proj1 unsupported_kind_throws (FigmaOther "class-name" (JObject []))).
    reflexivity.
  - apply (proj2 unsupported_kind_throws examplePlatform buttonPayload).
    reflexivity.
Defined.

(** ** Lines 95-123 and 179-197: props with no mapping *)

Lemma normalizePropValue_slug (s : string) : normalizePropValue s = valueSlug s.
Proof.
  unfold normalizePropValue, valueSlug, toLowerCase.
  induction s as [|c s IH]; simpl; [reflexivity|].
  rewrite IH. destruct (isAlnum c); reflexivity.
Qed.

Lemma variantEntries_slug (options : list string) :
  List.map variantEntry options =
  List.map (fun e => "  " +:+ quoted (fst e) +:+ ": " +:+ quoted (snd e))
           (List.map (fun o => (o, valueSlug o)) options).
Proof.
  rewrite List.map_map. apply List.map_ext. intros o. unfold variantEntry. simpl.
  now rewrite normalizePropValue_slug.
Qed.

Lemma generateSingle_declarationOf (P : Platform) (name : string)
    (propDef : ComponentPropertyDefinition) :
  (type propDef = VARIANT -> variantOptions propDef <> None) ->
  generateSinglePropMappingFromFigmaProp P name propDef = declarationOf P (name, propDef).
Proof.
  intros Hvariant.
  unfold generateSinglePropMappingFromFigmaProp, declarationOf, bindingOf.
  destruct propDef as [t vo]. simpl in *.
  destruct t; simpl; try reflexivity.
  destruct vo as [options|]; [|now destruct Hvariant].
  destruct (isBooleanVariant (Some options)); simpl; [reflexivity|].
  rewrite variantEntries_slug. reflexivity.
Qed.

(** A declaration starts with a quote: the test of line 190 lets it
    through. *)
Lemma pushIfTruthy_generateSingle (P : Platform) (name : string)
    (propDef : ComponentPropertyDefinition) :
  pushIfTruthy (generateSinglePropMappingFromFigmaProp P name propDef) =
  match generateSinglePropMappingFromFigmaProp P name propDef with
  | Some d => [d]
  | None => []
  end.
Proof.
  unfold generateSinglePropMappingFromFigmaProp.
  destruct (type propDef); try reflexivity.
  destruct (isBooleanVariant (variantOptions propDef)); reflexivity.
Qed.

Lemma generateSingle_supported (P : Platform) (name : string)
    (propDef : ComponentPropertyDefinition) :
  supportedType (type propDef) = true <->
  exists d, generateSinglePropMappingFromFigmaProp P name propDef = Some d.
Proof.
  unfold generateSinglePropMappingFromFigmaProp.
  destruct (type propDef); simpl; split; intros H; try reflexivity; eauto.
  - destruct (isBooleanVariant (variantOptions propDef)); eauto.
  - discriminate.
  - destruct H; discriminate.
Qed.

Lemma autoProps_length (P : Platform)
    (defs : list (string * ComponentPropertyDefinition)) :
  List.length (flat_map (fun e => pushIfTruthy
                 (generateSinglePropMappingFromFigmaProp P (fst e) (snd e))) defs) =
  List.length (List.filter (fun e => supportedType (type (snd e))) defs).
Proof.
  induction defs as [|[name propDef] defs IH]; simpl; [reflexivity|].
  rewrite List.length_app, IH, pushIfTruthy_generateSingle.
  destruct (supportedType (type propDef)) eqn:Hs.
  - apply (generateSingle_supported P name) in Hs as [d ->]. reflexivity.
  - destruct (generateSinglePropMappingFromFigmaProp P name propDef) eqn:Hg;
      [|reflexivity].
    assert (supportedType (type propDef) = true)
      by (apply (generateSingle_supported P name); eauto).
    congruence.
Qed.

Lemma autoProps_omap (P : Platform)
    (defs : list (string * ComponentPropertyDefinition)) :
  (forall name propDef, In (name, propDef) defs ->
     type propDef = VARIANT -> variantOptions propDef <> None) ->
  flat_map (fun e => pushIfTruthy
              (generateSinglePropMappingFromFigmaProp P (fst e) (snd e))) defs =
  omap (declarationOf P) defs.
Proof.
  induction defs as [|[name propDef] defs IH]; intros H; simpl; [reflexivity|].
  rewrite IH by (intros n d Hin; apply (H n d); right; exact Hin).
  rewrite pushIfTruthy_generateSingle.
  rewrite generateSingle_declarationOf by (apply (H name); now left).
  destruct (declarationOf P (name, propDef)); reflexivity.
Qed.

(** C6.  The generator of props with no mapping emits one declaration for
    each property of a supported type and none for the others, so N of them
    for N supported and M unsupported properties; on a component whose
    variants have their options, the declarations are those of the table:
    BOOLEAN a boolean binding, TEXT a string binding, a boolean-shaped
    VARIANT a boolean binding, any other VARIANT an enum binding that maps
    every option to its slug, INSTANCE_SWAP an instance binding. *)
Theorem autoProps_one_per_supported_property (P : Platform) (c : Component) :
  let defs := componentPropertyDefinitions c in
  let supported := List.filter (fun e => supportedType (type (snd e))) defs in
  let unsupported := List.filter (fun e => negb (supportedType (type (snd e)))) defs in
  List.length (autoPropsOf P c) = List.length supported /\
  List.length supported + List.length unsupported = List.length defs /\
  (forall e, declarationOf P e = None <-> supportedType (type (snd e)) = false) /\
  (variantsHaveOptions c -> autoPropsOf P c = omap (declarationOf P) defs) /\
  generateProps P c =
    match defs with
    | [] => "{}"
    | _ :: _ => "{" +:+ nl +:+ "  " +:+
                join ("," +:+ nl +:+ "  ") (autoPropsOf P c) +:+ nl +:+ "}"
    end.
Proof.
  intros defs supported unsupported. subst defs supported unsupported.
  split; [apply autoProps_length|].
  split.
  { induction (componentPropertyDefinitions c) as [|e l IH]; simpl; [reflexivity|].
    destruct (supportedType (type (snd e))); simpl; lia. }
  split.
  { intros [name [t vo]]. unfold declarationOf, bindingOf. simpl.
    destruct t; simpl; split; intros H; try discriminate; try reflexivity.
    destruct (isBooleanVariant vo); discriminate. }
  split; [intros H; now apply autoProps_omap|].
  reflexivity.
Qed.

(** The component of the examples: four declarations for four supported
    properties out of five. *)
Lemma autoProps_buttonComponent :
  autoPropsOf examplePlatform buttonComponent =
  omap (declarationOf examplePlatform) (componentPropertyDefinitions buttonComponent).
Proof.
  apply (autoProps_one_per_supported_property examplePlatform buttonComponent).
  intros name propDef Hin Ht. simpl in Hin.
  repeat (destruct Hin as [Hin|Hin];
          [injection Hin as <- <-; try discriminate; simpl; discriminate|]).
  contradiction.
Defined.

Example buttonComponent_declarations :
  autoPropsOf examplePlatform buttonComponent =
  [quoted "disabled" +:+ ": figma.boolean('Disabled')";
   quoted "size" +:+ ": figma.enum('Size', { " +:+ nl +:+
     "  " +:+ quoted "Small" +:+ ": " +:+ quoted "small" +:+ "," +:+ nl +:+
     "  " +:+ quoted "Large" +:+ ": " +:+ quoted "large" +:+ "})";
   quoted "hasIcon" +:+ ": figma.boolean('Has Icon')";
   quoted "icon" +:+ ": figma.instance('Icon')"].
Proof. reflexivity. Qed.

(** ** Lines 125-160: the design properties a mapping uses, and the rest *)

Lemma sameValueZero_eq (a b : JsValue) : sameValueZero a b = true -> a = b.
Proof.
  destruct a, b; simpl; try discriminate; intros H.
  - reflexivity.
  - now apply Bool.eqb_prop in H as ->.
  - now apply String.eqb_eq in H as ->.
  - now apply String.eqb_eq in H as ->.
Qed.

Lemma In_newSet (v : JsValue) (l : list JsValue) : In v (newSet l) <-> In v l.
Proof.
  induction l as [|x l IH]; simpl; [tauto|].
  rewrite List.filter_In, IH. split.
  - intros [H|[H _]]; auto.
  - intros [H|H]; [now left|].
    destruct (sameValueZero x v) eqn:E.
    + left. now apply sameValueZero_eq.
    + right. split; [exact H | reflexivity].
Qed.

Lemma setHas_In (set : list JsValue) (name : string) :
  setHas set name = true <-> In (JString name) set.
Proof.
  unfold setHas. rewrite List.existsb_exists. split.
  - intros (x & Hx & E). apply sameValueZero_eq in E. now subst x.
  - intros H. exists (JString name). split; [exact H|].
    simpl. apply String.eqb_refl.
Qed.

Lemma getSet_object (entries : list (string * JsValue)) :
  getSetOfAllPropsReferencedInPropMapping (JObject entries) =
  newSet (pushedValues entries).
Proof. reflexivity. Qed.

Lemma In_pushedValues (v : JsValue) (es : list (string * JsValue)) :
  In v (pushedValues es) <->
  In ("figmaPropName", v) es \/
  exists k child, In (k, child) es /\ isObject child = true /\
                  In v (getSetOfAllPropsReferencedInPropMapping child).
Proof.
  induction es as [|[k w] es IH]; simpl.
  - split; [tauto|]. intros [[]|(k & child & [] & _)].
  - rewrite !List.in_app_iff, IH. split.
    + intros [H|[H|[H|(k' & child & Hin & Ho & Hv)]]].
      * destruct (String.eqb_spec k "figmaPropName") as [->|]; [|destruct H].
        destruct H as [->|[]]. left. now left.
      * destruct (isObject w) eqn:E; [|destruct H].
        right. exists k, w. auto.
      * left. now right.
      * right. exists k', child. auto.
    + intros [[H|H]|(k' & child & [H|Hin] & Ho & Hv)].
      * injection H as -> ->. left. rewrite String.eqb_refl. now left.
      * right. right. now left.
      * injection H as -> ->. right. left. now rewrite Ho.
      * right. right. right. exists k', child. auto.
Qed.

Lemma attributeValue_object (name : string) (obj v : JsValue) :
  attributeValue name obj v -> isObject obj = true.
Proof. now destruct 1. Qed.

Lemma getSet_attributeValue (obj v : JsValue) :
  In v (getSetOfAllPropsReferencedInPropMapping obj) <->
  attributeValue "figmaPropName" obj v.
Proof.
  revert v. induction obj as [| | | |entries IH] using JsValue_tree_ind; intros v;
    try (split; [intros [] | intros H; apply attributeValue_object in H; discriminate]).
  rewrite getSet_object, In_newSet, In_pushedValues.
  rewrite List.Forall_forall in IH. split.
  - intros [H|(k & child & Hin & _ & Hv)].
    + now apply attribute_here.
    + apply attribute_below with k child; [exact Hin|].
      now apply (IH (k, child) Hin).
  - intros H. inversion H as [es w Hin|es k child w Hin Hchild]; subst.
    + now left.
    + right. exists k, child. split; [exact Hin|]. split.
      * eapply attributeValue_object; eauto.
      * now apply (IH (k, child) Hin).
Qed.

Lemma objectOfIntrinsic_valueMapping (p : string)
    (vm : list (string * ValueMappingKind Intrinsic)) :
  objectOfIntrinsic (FigmaBoolean p (Some vm)) =
    JObject [("kind", JString "boolean");
             ("args", JObject [("figmaPropName", JString p);
                               ("valueMapping", JObject (objectOfValueMapping vm))])] /\
  objectOfIntrinsic (FigmaEnum p (Some vm)) =
    JObject [("kind", JString "enum");
             ("args", JObject [("figmaPropName", JString p);
                               ("valueMapping", JObject (objectOfValueMapping vm))])].
Proof. split; reflexivity. Qed.

Lemma In_objectOfValueMapping (k : string) (v : ValueMappingKind Intrinsic)
    (vm : list (string * ValueMappingKind Intrinsic)) :
  In (k, v) vm -> In (k, objectOfValue v) (objectOfValueMapping vm).
Proof.
  induction vm as [|[k' v'] vm IH]; simpl; [tauto|].
  intros [H|H]; [injection H as -> ->; now left | right; auto].
Qed.

Ltac attribute_in_args :=
  eapply attribute_below; [right; left; reflexivity|].

Lemma refersTo_attributeValue (name : string) (i : Intrinsic) :
  refersTo name i ->
  attributeValue "figmaPropName" (objectOfIntrinsic i) (JString name).
Proof.
  induction 1 as [|[vm|]|[vm|]| |p vm k i Hin Hi IH|p vm k i Hin Hi IH];
    try (attribute_in_args; apply attribute_here; left; reflexivity).
  - rewrite (proj1 (objectOfIntrinsic_valueMapping p vm)).
    attribute_in_args.
    eapply attribute_below; [right; left; reflexivity|].
    eapply attribute_below; [|exact IH].
    apply (In_objectOfValueMapping k (VIntrinsic i)), Hin.
  - rewrite (proj2 (objectOfIntrinsic_valueMapping p vm)).
    attribute_in_args.
    eapply attribute_below; [right; left; reflexivity|].
    eapply attribute_below; [|exact IH].
    apply (In_objectOfValueMapping k (VIntrinsic i)), Hin.
Qed.

Lemma refersTo_used (pm : PropMapping) (code name : string) (i : Intrinsic) :
  In (code, i) pm -> refersTo name i ->
  In (JString name)
     (getSetOfAllPropsReferencedInPropMapping (objectOfPropMapping pm)).
Proof.
  intros Hin Hi. apply getSet_attributeValue.
  apply attribute_below with code (objectOfIntrinsic i).
  - unfold objectOfPropMapping.
    apply (List.in_map (fun e => (fst e, objectOfIntrinsic (snd e))) pm (code, i)), Hin.
  - now apply refersTo_attributeValue.
Qed.

Lemma unmappedPropsOf_filter (P : Platform) (c : Component) (pm : PropMapping) :
  unmappedPropsOf P c pm =
  omap (fun e => generateSinglePropMappingFromFigmaProp P (fst e) (snd e))
       (List.filter
          (fun e => negb (setHas (getSetOfAllPropsReferencedInPropMapping
                                    (objectOfPropMapping pm)) (fst e)))
          (componentPropertyDefinitions c)).
Proof.
  unfold unmappedPropsOf.
  generalize (getSetOfAllPropsReferencedInPropMapping (objectOfPropMapping pm)).
  intros used.
  induction (componentPropertyDefinitions c) as [|[name propDef] defs IH];
    simpl; [reflexivity|].
  rewrite IH.
  destruct (negb (setHas used name)); simpl; [|reflexivity].
  rewrite pushIfTruthy_generateSingle.
  destruct (generateSinglePropMappingFromFigmaProp P name propDef); reflexivity.
Qed.

Lemma In_unmappedPropsOf (P : Platform) (c : Component) (pm : PropMapping)
    (d : string) :
  In d (unmappedPropsOf P c pm) <->
  exists name propDef,
    In (name, propDef) (componentPropertyDefinitions c) /\
    ~ In (JString name)
         (getSetOfAllPropsReferencedInPropMapping (objectOfPropMapping pm)) /\
    generateSinglePropMappingFromFigmaProp P name propDef = Some d.
Proof.
  unfold unmappedPropsOf.
  generalize (getSetOfAllPropsReferencedInPropMapping (objectOfPropMapping pm)).
  intros used. rewrite List.in_flat_map. split.
  - intros ([name propDef] & Hin & Hd). cbn [fst snd] in Hd.
    destruct (setHas used name) eqn:E; cbn [negb] in Hd; [destruct Hd|].
    exists name, propDef. split; [exact Hin|]. split.
    + intros H. apply setHas_In in H. congruence.
    + rewrite pushIfTruthy_generateSingle in Hd.
      destruct (generateSinglePropMappingFromFigmaProp P name propDef);
        [destruct Hd as [->|[]]; reflexivity | destruct Hd].
  - intros (name & propDef & Hin & Hused & Hd).
    exists (name, propDef). split; [exact Hin|]. cbn [fst snd].
    destruct (setHas used name) eqn:E; [apply setHas_In in E; contradiction|].
    cbn [negb]. rewrite pushIfTruthy_generateSingle, Hd. now left.
Qed.

Lemma unmappedPropsOf_length (P : Platform) (c : Component) (pm : PropMapping) :
  List.length (unmappedPropsOf P c pm) =
  List.length
    (List.filter
       (fun e => negb (setHas (getSetOfAllPropsReferencedInPropMapping
                                 (objectOfPropMapping pm)) (fst e)) &&
                 supportedType (type (snd e)))
       (componentPropertyDefinitions c)).
Proof.
  unfold unmappedPropsOf.
  generalize (getSetOfAllPropsReferencedInPropMapping (objectOfPropMapping pm)).
  intros used.
  induction (componentPropertyDefinitions c) as [|[name propDef] defs IH];
    simpl; [reflexivity|].
  rewrite List.length_app, IH.
  destruct (negb (setHas used name)); simpl; [|reflexivity].
  rewrite pushIfTruthy_generateSingle.
  destruct (supportedType (type propDef)) eqn:Hs.
  - apply (generateSingle_supported P name) in Hs as [d ->]. reflexivity.
  - destruct (generateSinglePropMappingFromFigmaProp P name propDef) eqn:Hg;
      [|reflexivity].
    assert (supportedType (type propDef) = true)
      by (apply (generateSingle_supported P name); eauto).
    congruence.
Qed.

(** C7.  The set of used design properties holds exactly the values of the
    attributes called figmaPropName at any depth of the mapping, those of
    intrinsics nested in value mappings included; the suggested declarations
    are those of the component properties whose name is not in the set, in
    the order of the component: every such property of a supported type
    gives its declaration, a property of an unsupported type gives none, and
    there are as many suggestions as unused properties of supported
    types. *)
Theorem usedFigmaProps_and_unmapped (P : Platform) (c : Component) (pm : PropMapping) :
  let obj := objectOfPropMapping pm in
  let used := getSetOfAllPropsReferencedInPropMapping obj in
  (forall v, In v used <-> attributeValue "figmaPropName" obj v) /\
  (forall code i name, In (code, i) pm -> refersTo name i -> In (JString name) used) /\
  (forall name, setHas used name = true <->
                attributeValue "figmaPropName" obj (JString name)) /\
  unmappedPropsOf P c pm =
    omap (fun e => generateSinglePropMappingFromFigmaProp P (fst e) (snd e))
         (List.filter (fun e => negb (setHas used (fst e)))
                      (componentPropertyDefinitions c)) /\
  (forall d, In d (unmappedPropsOf P c pm) <->
     exists name propDef,
       In (name, propDef) (componentPropertyDefinitions c) /\
       ~ attributeValue "figmaPropName" obj (JString name) /\
       generateSinglePropMappingFromFigmaProp P name propDef = Some d) /\
  (forall name propDef, supportedType (type propDef) = false ->
     generateSinglePropMappingFromFigmaProp P name propDef = None) /\
  (forall name propDef,
      In (name, propDef) (componentPropertyDefinitions c) ->
      supportedType (type propDef) = true ->
      ~ attributeValue "figmaPropName" obj (JString name) ->
      exists d, generateSinglePropMappingFromFigmaProp P name propDef = Some d /\
                In d (unmappedPropsOf P c pm)) /\
  List.length (unmappedPropsOf P c pm) =
    List.length
      (List.filter (fun e => negb (setHas used (fst e)) && supportedType (type (snd e)))
                   (componentPropertyDefinitions c)).
Proof.
  intros obj used. subst obj used.
  split; [intros v; apply getSet_attributeValue|].
  split; [intros code i name; apply refersTo_used|].
  split; [intros name; rewrite setHas_In; apply getSet_attributeValue|].
  split; [apply unmappedPropsOf_filter|].
  split.
  { intros d. rewrite In_unmappedPropsOf.
    split; intros (name & propDef & Hin & Hused & Hd); exists name, propDef;
      (split; [exact Hin|]); (split; [|exact Hd]);
      intros H; apply Hused; now apply getSet_attributeValue. }
  split.
  { intros name propDef H.
    destruct (generateSinglePropMappingFromFigmaProp P name propDef) eqn:E;
      [|reflexivity].
    assert (supportedType (type propDef) = true)
      by (apply (generateSingle_supported P name); eauto).
    congruence. }
  split; [|apply unmappedPropsOf_length].
  intros name propDef Hin Hs Hused.
  destruct (proj1 (generateSingle_supported P name propDef) Hs) as [d Hd].
  exists d. split; [exact Hd|].
  apply In_unmappedPropsOf. exists name, propDef.
  split; [exact Hin|]. split; [|exact Hd].
  intros H. apply Hused. now apply getSet_attributeValue.
Qed.

(** A mapping that covers A and, inside a value mapping, B leaves C of a
    component with the properties A, B and C: B is used, C is suggested. *)
Lemma B_is_used_C_is_suggested :
  In (JString "B")
     (getSetOfAllPropsReferencedInPropMapping (objectOfPropMapping abMapping)) /\
  In (quoted "c" +:+ ": figma.boolean('C')")
     (unmappedPropsOf examplePlatform abcComponent abMapping).
Proof.
  destruct (usedFigmaProps_and_unmapped examplePlatform abcComponent abMapping)
    as (Hset & Hrefers & _ & _ & _ & _ & Hsuggested & _).
  split.
  - apply (Hrefers "tone"
             (FigmaEnum "A" (Some [("on", VIntrinsic (FigmaString "B"));
                                   ("off", VUndefined)]))).
    + left. reflexivity.
    + apply refers_enum_nested with "on" (FigmaString "B");
        [left; reflexivity | constructor].
  - destruct (Hsuggested "C" (plainProperty BOOLEAN)) as (d & Hd & Hin).
    + right. right. left. reflexivity.
    + reflexivity.
    + intros H. apply Hset in H.
      change (In (JString "C") [JString "A"; JString "B"]) in H.
      destruct H as [H|[H|[]]]; discriminate.
    + injection Hd as <-. exact Hin.
Defined.

Example unmapped_is_C :
  getSetOfAllPropsReferencedInPropMapping (objectOfPropMapping abMapping) =
    [JString "A"; JString "B"] /\
  unmappedPropsOf examplePlatform abcComponent abMapping =
    [quoted "c" +:+ ": figma.boolean('C')"].
Proof. split; reflexivity. Qed.

(** ** Lines 152-160: names are compared as they are *)






Example text_with_node_id_both_blocks :
  generatePropsFromMapping examplePlatform textComponent labelMapping =
  Return ("{" +:+ nl +:+
          "  // These props were automatically mapped based on your linked code:" +:+ nl +:+
          "  " +:+ quoted "label" +:+ ": figma.string(" +:+ quoted "Text" +:+ ")," +:+ nl +:+
          "  // No matching props could be found for these Figma properties:" +:+ nl +:+
          "  // " +:+ quoted "text" +:+ ": figma.string('Text')" +:+ nl +:+
          "  }").
Proof. reflexivity. Qed.

(** ** Lines 199-229: the import path *)

Lemma endsWith_cons (c : ascii) (r suffix : string) :
  endsWith (String c r) suffix -> String c r = suffix \/ endsWith r suffix.
Proof.
  intros [[|d base] H]; simpl in H.
  - now left.
  - right. injection H as _ ->. now exists base.
Qed.

Lemma dropJsxTsxExtension_spec (s : string) :
  withoutJsxTsx s (dropJsxTsxExtension s).
Proof.
  unfold withoutJsxTsx. induction s as [|c r IH].
  - right. right. split; [reflexivity|].
    split; intros [[|d base] H]; discriminate.
  - cbn [dropJsxTsxExtension].
    destruct (String.eqb_spec (String c r) ".jsx") as [E1|N1]; [now left|].
    destruct (String.eqb_spec (String c r) ".tsx") as [E2|N2]; [right; now left|].
    cbn [orb].
    destruct IH as [IH|[IH|(IH & J & T)]].
    + left. simpl. now rewrite <- IH.
    + right. left. simpl. now rewrite <- IH.
    + right. right. rewrite IH. split; [reflexivity|].
      split; intros H; apply endsWith_cons in H as [H|H]; auto.
Qed.

Lemma prefix_one_unit (sep d : ascii) (r : string) :
  String.prefix (String sep EmptyString) (String d r) = Ascii.eqb d sep.
Proof.
  simpl. destruct (ascii_dec sep d) as [->|N].
  - rewrite Ascii.eqb_refl. now destruct r.
  - symmetry. apply Ascii.eqb_neq. congruence.
Qed.

(** For a separator of one unit, [replaceAll] turns each separator into a
    slash and keeps the other units. *)
Lemma replaceAll_one_unit (sep : ascii) (s : string) :
  replaceAll (String sep EmptyString) "/" s =
  mapString (fun d => if Ascii.eqb d sep then "/"%char else d) s.
Proof.
  unfold replaceAll. induction s as [|d r IH]; [reflexivity|].
  cbn [replaceAllFrom mapString]. rewrite prefix_one_unit.
  cbn [String.length Nat.sub]. rewrite IH.
  destruct (Ascii.eqb d sep); reflexivity.
Qed.

Lemma getImportsPath_given (P : Platform) (filePath source name : string) :
  source <> "" ->
  getImportsPath P filePath (Some source) name =
  formatImportPath P (path_relative P (path_dirname P filePath) source).
Proof.
  intros H. apply truthy_true in H. unfold getImportsPath. now rewrite H.
Qed.

(** C8, as the code has it.  When the source path is given and is not the
    empty string, the import path is the relative path from the directory of
    the destination file to the source file, with every separator of the
    platform turned into a slash, then [./] in front unless it starts with a
    dot, then without a trailing [.jsx] or [.tsx]; when the source path is
    absent or empty, it is [./] and the normalized name. *)
Theorem importsPath_relative_or_sibling (P : Platform) (payload : CreateRequestPayload) :
  (forall source,
      sourceFilepath payload = Some source -> source <> "" ->
      let relative :=
        path_relative P (path_dirname P (filePathOf P payload)) source in
      let slashed := replaceAll (path_sep P) "/" relative in
      let dotted := if startsWithDot slashed then slashed else "./" +:+ slashed in
      withoutJsxTsx dotted (importsPathOf P payload)) /\
  (sourceFilepath payload = None \/ sourceFilepath payload = Some "" ->
   importsPathOf P payload = "./" +:+ normalizedName (component payload)).
Proof.
  unfold importsPathOf. split.
  - intros source Hs Hne. rewrite Hs, getImportsPath_given by exact Hne.
    unfold formatImportPath.
    destruct (startsWithDot (replaceAll (path_sep P) "/" _)); cbn [negb];
      apply dropJsxTsxExtension_spec.
  - intros [->| ->]; reflexivity.
Qed.

(** The button is imported from [../src/Button]. *)
Lemma importsPath_buttonPayload :
  withoutJsxTsx "../src/Button.tsx" (importsPathOf examplePlatform buttonPayload).
Proof.
  apply (proj1 (importsPath_relative_or_sibling examplePlatform buttonPayload)
           "/work/src/Button.tsx").
  - reflexivity.
  - discriminate.
Defined.

Example buttonPayload_import_path :
  importsPathOf examplePlatform buttonPayload = "../src/Button".
Proof. reflexivity. Qed.

(** C8, as the specification has it, fails: a payload whose source path is
    the empty string has a source path, and its import path is not the
    formatted relative path to it; and the import path of a [.ts] source
    keeps its extension. *)
Lemma empty_source_path_is_ignored :
  sourceFilepath emptySourcePayload = Some "" /\
  importsPathOf examplePlatform emptySourcePayload = "./Button" /\
  formatImportPath examplePlatform
    (path_relative examplePlatform
       (path_dirname examplePlatform (filePathOf examplePlatform emptySourcePayload))
       "") = "./" /\
  importsPathOf examplePlatform emptySourcePayload <>
  formatImportPath examplePlatform
    (path_relative examplePlatform
       (path_dirname examplePlatform (filePathOf examplePlatform emptySourcePayload))
       "") /\
  importsPathOf examplePlatform tsSourcePayload = "../src/Button.ts".
Proof. repeat (split; [reflexivity|]). split; [discriminate | reflexivity]. Qed.

(** The extensions [.ts] and [.js] stay. *)
Example other_extensions_stay :
  formatImportPath examplePlatform "../src/Button.ts" = "../src/Button.ts" /\
  formatImportPath examplePlatform "Button.js" = "./Button.js" /\
  formatImportPath examplePlatform "Button.jsx" = "./Button".
Proof. repeat split; reflexivity. Qed.

(** ** Lines 257-266: the imported identifier *)

(** C9, as the code has it.  When both a source path and a source export are
    given (neither absent nor empty), the identifier is derived from the
    base file name for the export [default] and is the export name as it is
    otherwise; when either is missing, it is the normalized name of the
    component.  The import is a default import exactly when the source
    export is [default], whatever the source path. *)
Theorem importName_resolution (P : Platform) (payload : CreateRequestPayload) :
  (forall source export,
      sourceFilepath payload = Some source -> sourceExport payload = Some export ->
      source <> "" -> export <> "" ->
      sourceFilenameOf P payload = beforeFirstDot (path_parse_name P source) /\
      (export = "default" ->
       importNameOf P payload = normalizeComponentName P (sourceFilenameOf P payload)) /\
      (export <> "default" -> importNameOf P payload = export)) /\
  (given (sourceFilepath payload) = false \/ given (sourceExport payload) = false ->
   importNameOf P payload = normalizedName (component payload)) /\
  (sourceExport payload = Some "default" ->
   importClauseOf P payload = importNameOf P payload) /\
  (sourceExport payload <> Some "default" ->
   importClauseOf P payload = "{ " +:+ importNameOf P payload +:+ " }").
Proof.
  split.
  { intros source export Hs He Hsne Hene.
    unfold importNameOf, sourceFilenameOf. rewrite Hs, He.
    apply truthy_true in Hsne, Hene. rewrite Hsne, Hene. cbn [andb].
    split; [reflexivity|].
    split; intros H.
    - subst export. reflexivity.
    - apply String.eqb_neq in H. now rewrite H. }
  split.
  { unfold importNameOf, given. intros [H|H];
      destruct (sourceFilepath payload) as [source|];
      destruct (sourceExport payload) as [export|]; try reflexivity;
      try discriminate; rewrite H; try reflexivity.
    now rewrite andb_false_r. }
  split.
  { intros H. unfold importClauseOf, isDefaultExport. now rewrite H. }
  intros H. unfold importClauseOf, isDefaultExport.
  destruct (sourceExport payload) as [export|]; [|reflexivity].
  destruct (String.eqb_spec export "default") as [->|]; [now destruct H | reflexivity].
Qed.

(** The button is imported by default under the name of its file. *)
Lemma importName_buttonPayload :
  importNameOf examplePlatform buttonPayload =
  normalizeComponentName examplePlatform (sourceFilenameOf examplePlatform buttonPayload).
Proof.
  apply (proj1 (importName_resolution examplePlatform buttonPayload)
           "/work/src/Button.tsx" "default"); try reflexivity; discriminate.
Defined.

Example importClause_buttonPayload :
  importNameOf examplePlatform buttonPayload = "Button" /\
  importClauseOf examplePlatform buttonPayload = "Button" /\
  importClauseOf examplePlatform exportOnlyPayload = "{ Button }".
Proof. repeat split; reflexivity. Qed.

(** C9, as the specification has it, fails: a named export given without a
    source path is not used; the identifier is the normalized name. *)
Lemma export_without_source_is_ignored :
  sourceExport exportOnlyPayload = Some "PrimaryButton" /\
  importNameOf examplePlatform exportOnlyPayload = "Button" /\
  importNameOf examplePlatform exportOnlyPayload <> "PrimaryButton".
Proof. split; [reflexivity|]. split; [reflexivity | discriminate]. Qed.

(** ** Lines 291-306: the write and its guard *)

Lemma mkdir_fold_preserves (l : list string) (fs : FileSystem) (p : string) (n : FsNode) :
  fs !! p = Some n -> foldr mkdirStep fs l !! p = Some n.
Proof.
  intros H. induction l as [|d l IH]; simpl; [exact H|].
  unfold mkdirStep at 1. destruct (foldr mkdirStep fs l !! d) eqn:E; [exact IH|].
  rewrite lookup_insert_ne; [exact IH|]. intros ->. congruence.
Qed.

Lemma mkdir_fold_adds (l : list string) (fs : FileSystem) (p : string) :
  In p l -> is_Some (foldr mkdirStep fs l !! p).
Proof.
  induction l as [|d l IH]; simpl; [tauto|].
  intros Hin. unfold mkdirStep at 1.
  destruct (foldr mkdirStep fs l !! d) eqn:E.
  - destruct Hin as [->|Hin]; [rewrite E; eauto | auto].
  - destruct (decide (d = p)) as [->|N].
    + rewrite lookup_insert_eq. eauto.
    + rewrite lookup_insert_ne by exact N.
      destruct Hin as [Hin|Hin]; [contradiction | auto].
Qed.

Lemma mkdir_fold_untouched (l : list string) (fs : FileSystem) (p : string) :
  ~ In p l -> foldr mkdirStep fs l !! p = fs !! p.
Proof.
  induction l as [|d l IH]; simpl; [reflexivity|].
  intros Hin. unfold mkdirStep at 1.
  destruct (foldr mkdirStep fs l !! d) eqn:E; [tauto|].
  rewrite lookup_insert_ne by tauto. tauto.
Qed.

Lemma mkdir_fold_origin (l : list string) (fs : FileSystem) (p : string) (n : FsNode) :
  foldr mkdirStep fs l !! p = Some n -> fs !! p = Some n \/ n = Directory.
Proof.
  induction l as [|d l IH]; simpl; [auto|].
  unfold mkdirStep at 1. destruct (foldr mkdirStep fs l !! d) eqn:E; [exact IH|].
  destruct (decide (d = p)) as [->|N].
  - rewrite lookup_insert_eq. intros H. injection H as <-. now right.
  - rewrite lookup_insert_ne by exact N. exact IH.
Qed.

Lemma mkdir_fold_directory (l : list string) (fs : FileSystem) (p : string) :
  In p l -> isFile fs p = false -> foldr mkdirStep fs l !! p = Some Directory.
Proof.
  intros Hin Hf. destruct (mkdir_fold_adds l fs p Hin) as [n Hn]. rewrite Hn.
  destruct (mkdir_fold_origin l fs p n Hn) as [H| ->]; [|reflexivity].
  unfold isFile in Hf. rewrite H in Hf. destruct n; [discriminate | reflexivity].
Qed.

Lemma directoriesTo_head (P : Platform) (dir : string) : In dir (directoriesTo P dir).
Proof. simpl. now left. Qed.

Lemma existsSync_false (fs : FileSystem) (p : string) :
  existsSync fs p = false -> fs !! p = None.
Proof.
  unfold existsSync. intros H. apply bool_decide_eq_false in H.
  destruct (fs !! p); [destruct H; eauto | reflexivity].
Qed.

Lemma mkdirSync_returns (P : Platform) (dir : string) (fs : FileSystem) :
  (forall a, In a (directoriesTo P dir) -> isFile fs a = false) ->
  mkdirSync P dir fs = Return (foldr mkdirStep fs (directoriesTo P dir)).
Proof.
  intros H. unfold mkdirSync. rewrite (H dir (directoriesTo_head P dir)).
  destruct (existsb (isFile fs) (directoriesTo P dir)) eqn:E; [|reflexivity].
  apply List.existsb_exists in E as (a & Ha & Hf). rewrite (H a Ha) in Hf. discriminate.
Qed.


Lemma mkdirSync_inv (P : Platform) (dir : string) (fs fs1 : FileSystem) :
  mkdirSync P dir fs = Return fs1 ->
  fs1 = foldr mkdirStep fs (directoriesTo P dir) /\
  forall a, In a (directoriesTo P dir) -> isFile fs a = false.
Proof.
  unfold mkdirSync. destruct (isFile fs dir); [discriminate|].
  destruct (existsb (isFile fs) (directoriesTo P dir)) eqn:E; [discriminate|].
  intros H. injection H as <-. split; [reflexivity|].
  intros a Ha. destruct (isFile fs a) eqn:F; [|reflexivity].
  assert (existsb (isFile fs) (directoriesTo P dir) = true)
    by (apply List.existsb_exists; eauto).
  congruence.
Qed.

Lemma writeFileSync_inv (P : Platform) (p text : string) (fs fs2 : FileSystem) :
  writeFileSync P p text fs = Return fs2 -> fs2 = <[p := File text]> fs.
Proof.
  unfold writeFileSync.
  destruct (fs !! p) as [[|]|]; destruct (fs !! path_dirname P p) as [[|]|];
    try discriminate; intros H; now injection H as <-.
Qed.


(** A throw of the renderer or of the formatter ends the call before the
    file system is looked at. *)
Lemma createReactCodeConnect_throws (P : Platform) (payload : CreateRequestPayload)
    (fs : FileSystem) (e : string) :
  formattedOf P payload = Throw e ->
  createReactCodeConnect P payload fs = (Throw e, fs).
Proof. intros H. unfold createReactCodeConnect. now rewrite H. Qed.

Lemma conflict_is_reported (P : Platform) (payload : CreateRequestPayload)
    (fs : FileSystem) (formatted : string) :
  formattedOf P payload = Return formatted ->
  existsSync fs (filePathOf P payload) = true ->
  createReactCodeConnect P payload fs =
    (Return {| createdFiles := [];
               messages := [conflictMessage (filePathOf P payload)] |}, fs).
Proof.
  intros Hf He. unfold createReactCodeConnect. now rewrite Hf, He.
Qed.

Lemma file_is_written (P : Platform) (payload : CreateRequestPayload)
    (fs : FileSystem) (formatted : string) :
  formattedOf P payload = Return formatted ->
  existsSync fs (filePathOf P payload) = false ->
  (forall a, In a (directoriesTo P (path_dirname P (filePathOf P payload))) ->
             isFile fs a = false) ->
  ~ In (filePathOf P payload) (directoriesTo P (path_dirname P (filePathOf P payload))) ->
  createReactCodeConnect P payload fs =
    (Return {| createdFiles := [{| filePath := filePathOf P payload |}];
               messages := [] |},
     <[filePathOf P payload := File formatted]>
       (foldr mkdirStep fs (directoriesTo P (path_dirname P (filePathOf P payload))))).
Proof.
  intros Hf He Hfiles Hpath. unfold createReactCodeConnect.
  rewrite Hf, He, mkdirSync_returns by exact Hfiles.
  unfold writeFileSync.
  rewrite (mkdir_fold_untouched _ fs (filePathOf P payload) Hpath).
  rewrite (existsSync_false fs _ He).
  rewrite mkdir_fold_directory;
    [reflexivity | apply directoriesTo_head | apply Hfiles, directoriesTo_head].
Qed.

Lemma written_file_system (P : Platform) (path formatted : string) (fs : FileSystem) :
  existsSync fs path = false ->
  let dirs := directoriesTo P (path_dirname P path) in
  (forall a, In a dirs -> isFile fs a = false) ->
  ~ In path dirs ->
  let fs' := <[path := File formatted]> (foldr mkdirStep fs dirs) in
  fs' !! path = Some (File formatted) /\
  (forall a, In a dirs -> fs' !! a = Some Directory) /\
  (forall p n, fs !! p = Some n -> fs' !! p = Some n) /\
  (forall p, p <> path -> ~ In p dirs -> fs' !! p = fs !! p).
Proof.
  intros He dirs Hfiles Hpath fs'. subst fs'.
  split; [apply lookup_insert_eq|].
  split.
  { intros a Ha. rewrite lookup_insert_ne by (intros ->; contradiction).
    apply mkdir_fold_directory; auto. }
  split.
  { intros p n Hp.
    rewrite lookup_insert_ne
      by (intros ->; rewrite (existsSync_false fs _ He) in Hp; discriminate).
    now apply mkdir_fold_preserves. }
  intros p N Hp. rewrite lookup_insert_ne by congruence.
  now apply mkdir_fold_untouched.
Qed.





(** Where the directory of the destination is a regular file, the call
    throws as [fs.mkdirSync] does, and writes nothing. *)
Example directory_of_destination_is_a_file :
  createReactCodeConnect examplePlatform buttonPayload
    {[ "/work/figma" := File "not a directory" ]} =
  (Throw "EEXIST: file already exists, mkdir '/work/figma'",
   {[ "/work/figma" := File "not a directory" ]}).
Proof. vm_compute. reflexivity. Qed.


(** X18.  Where the destination does not exist and no regular file is in
    the way of its directories, a first call creates the file and a second
    call for the same destination reports the conflict and leaves the file
    of the first call, and all the rest, as it is. *)
Lemma createReactCodeConnect_twice (P : Platform) (payload : CreateRequestPayload)
    (fs : FileSystem) (formatted : string) :
  formattedOf P payload = Return formatted ->
  existsSync fs (filePathOf P payload) = false ->
  (forall a, In a (directoriesTo P (path_dirname P (filePathOf P payload))) ->
             isFile fs a = false) ->
  ~ In (filePathOf P payload) (directoriesTo P (path_dirname P (filePathOf P payload))) ->
  let (first, fs1) := createReactCodeConnect P payload fs in
  let (second, fs2) := createReactCodeConnect P payload fs1 in
  first = Return {| createdFiles := [{| filePath := filePathOf P payload |}];
                    messages := [] |} /\
  second = Return {| createdFiles := [];
                     messages := [conflictMessage (filePathOf P payload)] |} /\
  fs2 = fs1 /\
  fs2 !! filePathOf P payload = Some (File formatted).
Proof.
  intros Hf He Hfiles Hpath.
  rewrite (file_is_written P payload fs formatted Hf He Hfiles Hpath).
  destruct (written_file_system P (filePathOf P payload) formatted fs He Hfiles Hpath)
    as (Hfile & _).
  rewrite (conflict_is_reported P payload _ formatted Hf).
  - auto.
  - unfold existsSync. apply bool_decide_eq_true. rewrite Hfile. eauto.
Qed.

Example buttonPayload_written_file :
  snd (createReactCodeConnect examplePlatform buttonPayload ∅)
    !! "/work/figma/Button.figma.tsx" =
  Some (File (
    nl +:+
    "import React from 'react'" +:+ nl +:+
    "import Button from '../src/Button'" +:+ nl +:+
    "import figma from '@figma/code-connect'" +:+ nl +:+
    nl +:+
    suggestionComment +:+ nl +:+
    nl +:+
    "figma.connect(Button, " +:+ quoted "https://figma.com/design/abc?node-id=1-2" +:+ ", {" +:+ nl +:+
    "  props: " +:+ generateProps examplePlatform buttonComponent +:+ "," +:+ nl +:+
    "  example: (props) => <Button />" +:+ nl +:+
    "})" +:+ nl)).
Proof. vm_compute. reflexivity. Qed.

(** * Further properties of the code *)

(** ** Lines 28-45: what the three normalizers keep and drop *)

Lemma dropTrailingNodeId_suffix (base r : string) :
  r <> "" -> allString isDigitOrColon r = true ->
  dropTrailingNodeId (base +:+ String "#" r) = base.
Proof.
  intros Hne Hr. apply truthy_true in Hne.
  induction base as [|c base IH]; simpl.
  - now rewrite Hne, Hr.
  - rewrite IH.
    destruct (Ascii.eqb_spec c "#") as [->|]; [|reflexivity].
    cbn [andb].
    assert (allString isDigitOrColon (base +:+ String "#" r) = false) as ->;
      [|now rewrite andb_false_r].
    clear IH. induction base as [|d base IH]; simpl; [reflexivity|].
    rewrite IH. apply andb_false_r.
Qed.

Lemma dropTrailingNodeId_other (s : string) :
  (forall base r, s = base +:+ String "#" r -> r <> "" ->
                  allString isDigitOrColon r = true -> False) ->
  dropTrailingNodeId s = s.
Proof.
  induction s as [|c s IH]; intros H; simpl; [reflexivity|].
  destruct (Ascii.eqb c "#" && truthy s && allString isDigitOrColon s) eqn:E.
  - apply andb_true_iff in E as [E Hall]. apply andb_true_iff in E as [Hc Ht].
    apply Ascii.eqb_eq in Hc. subst c. apply truthy_true in Ht.
    destruct (H "" s); auto.
  - rewrite IH; [reflexivity|].
    intros base r -> Hr Hall. apply (H (String c base) r); auto.
Qed.

(** X1.  The first replacement of [generateCodePropName] removes a trailing
    ['#'] with its digits and colons from any name, whatever comes before,
    and leaves a name without such an ending as it is; the code name of a
    key with a node id is the camel case of what remains of the name before
    the id. *)
Theorem generateCodePropName_drops_trailing_id (P : Platform) :
  (forall base r,
      r <> "" -> allString isDigitOrColon r = true ->
      dropTrailingNodeId (base +:+ String "#" r) = base /\
      generateCodePropName P (base +:+ String "#" r) =
        camelCase P (dropSpecialCharacters base)) /\
  (forall s,
      (forall base r, s = base +:+ String "#" r -> r <> "" ->
                      allString isDigitOrColon r = true -> False) ->
      dropTrailingNodeId s = s /\
      generateCodePropName P s = camelCase P (dropSpecialCharacters s)).
Proof.
  split.
  - intros base r Hne Hr. unfold generateCodePropName.
    now rewrite dropTrailingNodeId_suffix.
  - intros s H. unfold generateCodePropName.
    now rewrite dropTrailingNodeId_other.
Qed.

Lemma codePropName_of_color_2 :
  dropTrailingNodeId ("Color #2" +:+ String "#" "12:3") = "Color #2" /\
  generateCodePropName examplePlatform ("Color #2" +:+ String "#" "12:3") =
    camelCase examplePlatform (dropSpecialCharacters "Color #2").
Proof.
  apply (proj1 (generateCodePropName_drops_trailing_id examplePlatform)).
  - discriminate.
  - reflexivity.
Defined.

Lemma dropNodeIds_suffix (inMatch : bool) (base r : string) :
  allString isDigitOrColon r = true ->
  dropNodeIds inMatch (base +:+ String "#" r) = dropNodeIds inMatch base.
Proof.
  intros Hr. revert inMatch. induction base as [|c base IH]; intros inMatch; simpl.
  - now apply dropNodeIds_in_match.
  - rewrite !IH. reflexivity.
Qed.

(** X2.  Two keys that differ in their node id only get the same
    declaration: the same code name and the same design name. *)
Theorem keys_differing_in_node_id_collide (P : Platform) (base r1 r2 : string)
    (propDef : ComponentPropertyDefinition) :
  r1 <> "" -> allString isDigitOrColon r1 = true ->
  r2 <> "" -> allString isDigitOrColon r2 = true ->
  generateCodePropName P (base +:+ String "#" r1) =
    generateCodePropName P (base +:+ String "#" r2) /\
  normalizePropName (base +:+ String "#" r1) =
    normalizePropName (base +:+ String "#" r2) /\
  generateSinglePropMappingFromFigmaProp P (base +:+ String "#" r1) propDef =
    generateSinglePropMappingFromFigmaProp P (base +:+ String "#" r2) propDef.
Proof.
  intros N1 H1 N2 H2.
  assert (generateCodePropName P (base +:+ String "#" r1) =
          generateCodePropName P (base +:+ String "#" r2)) as Ecode.
  { unfold generateCodePropName. now rewrite !dropTrailingNodeId_suffix. }
  assert (normalizePropName (base +:+ String "#" r1) =
          normalizePropName (base +:+ String "#" r2)) as Ename.
  { unfold normalizePropName. now rewrite !dropNodeIds_suffix. }
  split; [exact Ecode|]. split; [exact Ename|].
  unfold generateSinglePropMappingFromFigmaProp. now rewrite Ecode, Ename.
Qed.

Lemma label_1_2_and_label_7_8_collide :
  generateCodePropName examplePlatform ("Label" +:+ String "#" "1:2") =
    generateCodePropName examplePlatform ("Label" +:+ String "#" "7:8") /\
  normalizePropName ("Label" +:+ String "#" "1:2") =
    normalizePropName ("Label" +:+ String "#" "7:8") /\
  generateSinglePropMappingFromFigmaProp examplePlatform
    ("Label" +:+ String "#" "1:2") (plainProperty TEXT) =
  generateSinglePropMappingFromFigmaProp examplePlatform
    ("Label" +:+ String "#" "7:8") (plainProperty TEXT).
Proof.
  apply keys_differing_in_node_id_collide; try discriminate; reflexivity.
Defined.

Lemma dropNodeIds_hasNoHash (inMatch : bool) (s : string) :
  hasNoHash (dropNodeIds inMatch s).
Proof.
  unfold hasNoHash. revert inMatch.
  induction s as [|c s IH]; intros inMatch; simpl; [reflexivity|].
  destruct (Ascii.eqb c "#") eqn:E; [apply IH|].
  destruct (inMatch && isDigitOrColon c); [apply IH|].
  simpl. now rewrite E, IH.
Qed.

Lemma dropNodeIds_after_dropTrailingNodeId (inMatch : bool) (s : string) :
  dropNodeIds inMatch (dropTrailingNodeId s) = dropNodeIds inMatch s.
Proof.
  revert inMatch. induction s as [|c s IH]; intros inMatch; [reflexivity|].
  cbn [dropTrailingNodeId].
  destruct (Ascii.eqb c "#" && truthy s && allString isDigitOrColon s) eqn:E.
  - apply andb_true_iff in E as [E Hall]. apply andb_true_iff in E as [Hc _].
    simpl. rewrite Hc. now rewrite dropNodeIds_in_match.
  - simpl. now rewrite !IH.
Qed.

(** X3.  The design name [normalizePropName] gives never holds a ['#'], a
    second pass changes nothing, and removing the trailing node id first
    gives the same name. *)
Theorem normalizePropName_leaves_no_hash (name : string) :
  hasNoHash (normalizePropName name) /\
  normalizePropName (normalizePropName name) = normalizePropName name /\
  normalizePropName (dropTrailingNodeId name) = normalizePropName name.
Proof.
  split; [apply dropNodeIds_hasNoHash|].
  split; [apply normalizePropName_no_hash, dropNodeIds_hasNoHash|].
  apply dropNodeIds_after_dropTrailingNodeId.
Qed.

Lemma slug_unit (c : ascii) :
  isSlugUnit (if isAlnum c then lowerChar c else "-"%char) = true.
Proof. destruct c as [[] [] [] [] [] [] [] []]; reflexivity. Qed.

Lemma slug_unit_fixed (c : ascii) :
  isSlugUnit c = true -> (if isAlnum c then lowerChar c else "-"%char) = c.
Proof. destruct c as [[] [] [] [] [] [] [] []]; (reflexivity || discriminate). Qed.

(** X4.  The slug of a variant option has the length of the option and is
    made of digits, lower-case letters and ['-'] only; a string made of
    these is its own slug, so a second pass changes nothing. *)
Theorem normalizePropValue_is_a_slug (value : string) :
  String.length (normalizePropValue value) = String.length value /\
  allString isSlugUnit (normalizePropValue value) = true /\
  (allString isSlugUnit value = true -> normalizePropValue value = value) /\
  normalizePropValue (normalizePropValue value) = normalizePropValue value.
Proof.
  assert (forall s, allString isSlugUnit s = true -> valueSlug s = s) as Hfixed.
  { unfold valueSlug.
    induction s as [|c s IH]; cbn [mapString allString]; [reflexivity|].
    intros H. apply andb_true_iff in H as [Hc Hs].
    now rewrite (slug_unit_fixed c Hc), IH. }
  assert (allString isSlugUnit (valueSlug value) = true) as Hslug.
  { unfold valueSlug.
    induction value as [|c s IH]; cbn [mapString allString]; [reflexivity|].
    now rewrite slug_unit, IH. }
  rewrite !normalizePropValue_slug.
  split; [|split; [exact Hslug | split; [apply Hfixed | now apply Hfixed]]].
  clear Hfixed Hslug. unfold valueSlug.
  induction value as [|c s IH]; cbn [mapString String.length];
    [reflexivity | now rewrite IH].
Qed.

Lemma slug_of_a_slug : normalizePropValue "extra-large" = "extra-large".
Proof.
  apply (proj1 (proj2 (proj2 (normalizePropValue_is_a_slug "extra-large")))).
  reflexivity.
Defined.

(** ** Lines 47-93 and 145-150: what the renderer returns and throws *)

Lemma valueMappingEntries_kind_error
    (vm : list (string * ValueMappingKind Intrinsic)) (e : string) :
  nestedAll (fun i => forall e, generateExpressionFromIntrinsic i = Throw e ->
                                isKindError e) (Some vm) ->
  valueMappingEntries vm = Throw e -> isKindError e.
Proof.
  unfold nestedAll. induction 1 as [|[k v] r Hv Hr IH]; simpl; [discriminate|].
  destruct v as [i|s|t|b|]; simpl in *;
    try (destruct (valueMappingEntries r); [discriminate|];
         intros H; injection H as <-; now apply IH).
  destruct (generateExpressionFromIntrinsic i) as [x|e'] eqn:E; simpl.
  - destruct (valueMappingEntries r); [discriminate|].
    intros H. injection H as <-. now apply IH.
  - intros H. injection H as <-. now apply Hv.
Qed.

Lemma generateExpressionFromIntrinsic_kind_error (i : Intrinsic) (e : string) :
  generateExpressionFromIntrinsic i = Throw e -> isKindError e.
Proof.
  revert e.
  induction i as [p|p [vm|] IH|p [vm|] IH|p|layers|layer|kind args]
    using Intrinsic_tree_ind; intros e; try discriminate.
  - rewrite (proj1 (render_with_valueMapping p vm)).
    destruct (valueMappingEntries vm) as [es|e'] eqn:E; [discriminate|].
    intros H. injection H as <-. now apply (valueMappingEntries_kind_error vm).
  - rewrite (proj2 (render_with_valueMapping p vm)).
    destruct (valueMappingEntries vm) as [es|e'] eqn:E; [discriminate|].
    intros H. injection H as <-. now apply (valueMappingEntries_kind_error vm).
  - intros H. injection H as <-. now exists kind.
Qed.

(** X5.  The renderer returns a non-empty expression when the intrinsic and
    every intrinsic nested in its value mappings are of the six kinds;
    otherwise it throws, and what it throws is always the message that names
    a kind: an unsupported intrinsic nested at any depth makes the whole
    rendering fail. *)
Theorem renderer_returns_or_names_kind (i : Intrinsic) :
  (onlySupportedKinds i = true ->
   exists e, generateExpressionFromIntrinsic i = Return e /\ truthy e = true) /\
  (onlySupportedKinds i = false ->
   exists e, generateExpressionFromIntrinsic i = Throw e /\ isKindError e).
Proof.
  split; intros H.
  - apply generateExpressionFromIntrinsic_returns in H as [e He].
    exists e. split; [exact He | now apply (rendered_truthy i)].
  - destruct (generateExpressionFromIntrinsic i) as [x|e] eqn:E.
    + assert (onlySupportedKinds i = true)
        by (apply generateExpressionFromIntrinsic_returns; eauto).
      congruence.
    + exists e. split; [reflexivity|].
      now apply (generateExpressionFromIntrinsic_kind_error i).
Qed.

Lemma nested_className_throws :
  exists e,
    generateExpressionFromIntrinsic
      (FigmaEnum "Size"
         (Some [("Small", VString "sm");
                ("Large", VIntrinsic (FigmaBoolean "Bold"
                   (Some [("true", VIntrinsic (FigmaOther "class-name" (JObject [])))])))]))
    = Throw e /\ isKindError e.
Proof.
  apply (proj2 (renderer_returns_or_names_kind _)). reflexivity.
Defined.

(** X6.  The test of line 147 never drops an entry: the mapped declarations
    are the rendered intrinsics in the order of the mapping, each under the
    code name the caller gave, as it is given; when the loop returns there
    are as many declarations as entries. *)
Theorem mappedProps_one_per_entry (pm : PropMapping) :
  mappedPropsOf pm =
    forEach (fun entry =>
               expr ← generateExpressionFromIntrinsic (snd entry);
               Return (quoted (fst entry) +:+ ": " +:+ expr)) pm /\
  (forall l, mappedPropsOf pm = Return l -> List.length l = List.length pm).
Proof.
  split.
  - induction pm as [|[code i] pm IH]; simpl; [reflexivity|].
    rewrite IH.
    destruct (generateExpressionFromIntrinsic i) as [expr|e] eqn:E; simpl;
      [|reflexivity].
    rewrite (rendered_truthy i expr E). reflexivity.
  - induction pm as [|[code i] pm IH]; simpl; intros l H.
    + injection H as <-. reflexivity.
    + destruct (generateExpressionFromIntrinsic i) as [expr|e] eqn:E; simpl in H;
        [|discriminate].
      destruct (mappedPropsOf pm) as [l'|e]; simpl in H; [|discriminate].
      rewrite (rendered_truthy i expr E) in H. injection H as <-.
      simpl. f_equal. now apply IH.
Qed.

Lemma mappedProps_of_labelMapping :
  List.length [quoted "label" +:+ ": figma.string(" +:+ quoted "Text" +:+ ")"] =
  List.length labelMapping.
Proof.
  apply (proj2 (mappedProps_one_per_entry labelMapping)). reflexivity.
Defined.

Lemma mappedPropsOf_entry_throws (pm : PropMapping) (code : string) (i : Intrinsic)
    (e : string) :
  In (code, i) pm -> generateExpressionFromIntrinsic i = Throw e ->
  exists e', mappedPropsOf pm = Throw e'.
Proof.
  induction pm as [|[code' i'] pm IH]; simpl; [tauto|].
  intros [H|H] Hi.
  - injection H as -> ->. rewrite Hi. simpl. eauto.
  - destruct (generateExpressionFromIntrinsic i'); simpl; [|eauto].
    destruct (IH H Hi) as [e' ->]. simpl. eauto.
Qed.

(** X7.  The generator of props from a mapping returns exactly when every
    mapped intrinsic is, with what is nested in it, of the six kinds; the
    properties of the component play no part in that. *)
Theorem generatePropsFromMapping_returns_iff (P : Platform) (c : Component)
    (pm : PropMapping) :
  (exists text, generatePropsFromMapping P c pm = Return text) <->
  (forall code i, In (code, i) pm -> onlySupportedKinds i = true).
Proof.
  split.
  - intros [text H] code i Hin.
    destruct (onlySupportedKinds i) eqn:E; [reflexivity|].
    destruct (generateExpressionFromIntrinsic i) as [x|e] eqn:Hi.
    + assert (onlySupportedKinds i = true)
        by (apply generateExpressionFromIntrinsic_returns; eauto).
      congruence.
    + destruct (mappedPropsOf_entry_throws pm code i e Hin Hi) as [e' He'].
      apply (generatePropsFromMapping_throws P c) in He'. congruence.
  - intros H. destruct (mappedPropsOf_returns pm H) as [l Hl].
    unfold generatePropsFromMapping. rewrite Hl. simpl. eauto.
Qed.

Lemma generatePropsFromMapping_abMapping_returns :
  exists text, generatePropsFromMapping examplePlatform abcComponent abMapping = Return text.
Proof.
  apply generatePropsFromMapping_returns_iff.
  intros code i [H|[]]. injection H as <- <-. reflexivity.
Defined.

(** ** Lines 125-160: the set of used names *)

Lemma sameValueZero_primitive (v : JsValue) :
  isObject v = false -> sameValueZero v v = true.
Proof.
  destruct v; simpl; intros H; try reflexivity.
  - apply Bool.eqb_reflx.
  - apply String.eqb_refl.
  - apply String.eqb_refl.
  - discriminate.
Qed.

Lemma filter_filter_swap {A : Type} (p q : A -> bool) (l : list A) :
  List.filter p (List.filter q l) = List.filter q (List.filter p l).
Proof.
  induction l as [|x l IH]; simpl; [reflexivity|].
  destruct (p x) eqn:Hp, (q x) eqn:Hq; simpl; rewrite ?Hp, ?Hq, IH; reflexivity.
Qed.

Lemma newSet_primitives_NoDup (l : list JsValue) :
  List.NoDup (List.filter (fun v => negb (isObject v)) (newSet l)).
Proof.
  induction l as [|v l IH]; simpl; [constructor|].
  assert (List.NoDup
            (List.filter (fun v => negb (isObject v))
               (List.filter (fun w => negb (sameValueZero v w)) (newSet l)))) as Hrest.
  { rewrite filter_filter_swap. now apply List.NoDup_filter. }
  destruct (isObject v) eqn:E; simpl; [exact Hrest|].
  constructor; [|exact Hrest].
  intros H. apply List.filter_In in H as [H _].
  apply List.filter_In in H as [_ H].
  rewrite sameValueZero_primitive in H by exact E. discriminate.
Qed.

(** X8.  The set of used names holds no primitive value twice: a name that
    several intrinsics refer to is there once. *)
Theorem usedFigmaProps_no_repetition (obj : JsValue) :
  List.NoDup (List.filter (fun v => negb (isObject v))
                          (getSetOfAllPropsReferencedInPropMapping obj)).
Proof.
  destruct obj; try constructor. rewrite getSet_object.
  apply newSet_primitives_NoDup.
Qed.

Lemma attributeValue_same_entries (name : string)
    (es es' : list (string * JsValue)) (v : JsValue) :
  (forall x, In x es -> In x es') ->
  attributeValue name (JObject es) v -> attributeValue name (JObject es') v.
Proof.
  intros Hsub H. inversion H as [? ? Hin|? k child ? Hin Hchild]; subst.
  - apply attribute_here. auto.
  - apply attribute_below with k child; auto.
Qed.

Lemma setHas_permutation (pm pm' : PropMapping) (name : string) :
  Permutation pm pm' ->
  setHas (getSetOfAllPropsReferencedInPropMapping (objectOfPropMapping pm)) name =
  setHas (getSetOfAllPropsReferencedInPropMapping (objectOfPropMapping pm')) name.
Proof.
  intros Hperm.
  assert (forall a b : PropMapping, Permutation a b ->
            setHas (getSetOfAllPropsReferencedInPropMapping (objectOfPropMapping a)) name = true ->
            setHas (getSetOfAllPropsReferencedInPropMapping (objectOfPropMapping b)) name = true)
    as Hone.
  { intros a b Hab. rewrite !setHas_In, !getSet_attributeValue.
    unfold objectOfPropMapping. apply attributeValue_same_entries.
    intros x. apply Permutation_in. now apply Permutation_map. }
  destruct (setHas (getSetOfAllPropsReferencedInPropMapping (objectOfPropMapping pm)) name)
    eqn:E.
  - symmetry. now apply (Hone pm pm').
  - destruct (setHas (getSetOfAllPropsReferencedInPropMapping (objectOfPropMapping pm')) name)
      eqn:E'; [|reflexivity].
    apply (Hone pm' pm) in E'; [congruence | now symmetry].
Qed.

(** X9.  The order of the entries of a mapping does not matter to the
    detection: a mapping with the same entries in another order uses the
    same names and leaves the same suggestions. *)
Theorem unmapped_detection_ignores_order (P : Platform) (c : Component)
    (pm pm' : PropMapping) :
  Permutation pm pm' ->
  (forall name,
      In (JString name) (getSetOfAllPropsReferencedInPropMapping (objectOfPropMapping pm)) <->
      In (JString name) (getSetOfAllPropsReferencedInPropMapping (objectOfPropMapping pm'))) /\
  unmappedPropsOf P c pm = unmappedPropsOf P c pm'.
Proof.
  intros Hperm. split.
  - intros name. rewrite <- !setHas_In.
    now rewrite (setHas_permutation pm pm' name Hperm).
  - unfold unmappedPropsOf. apply List.flat_map_ext. intros [name propDef].
    cbn [fst snd]. now rewrite (setHas_permutation pm pm' name Hperm).
Qed.

Lemma unmapped_of_swapped_mapping :
  unmappedPropsOf examplePlatform abcComponent
    [("a", FigmaString "A"); ("b", FigmaString "B")] =
  unmappedPropsOf examplePlatform abcComponent
    [("b", FigmaString "B"); ("a", FigmaString "A")].
Proof.
  apply unmapped_detection_ignores_order. apply perm_swap.
Defined.

(** X10.  No suggestion is left exactly when every property of a supported
    type has its raw key in the set of used names. *)
Theorem no_suggestion_iff_all_used (P : Platform) (c : Component) (pm : PropMapping) :
  unmappedPropsOf P c pm = [] <->
  (forall name propDef,
      In (name, propDef) (componentPropertyDefinitions c) ->
      supportedType (type propDef) = true ->
      In (JString name)
         (getSetOfAllPropsReferencedInPropMapping (objectOfPropMapping pm))).
Proof.
  split.
  - intros Hnil name propDef Hin Hs.
    apply (generateSingle_supported P name) in Hs as [d Hd].
    destruct (setHas (getSetOfAllPropsReferencedInPropMapping (objectOfPropMapping pm)) name)
      eqn:E; [now apply setHas_In|].
    assert (In d (unmappedPropsOf P c pm)) as Habs.
    { apply In_unmappedPropsOf. exists name, propDef.
      split; [exact Hin|]. split; [|exact Hd].
      intros H. apply setHas_In in H. congruence. }
    rewrite Hnil in Habs. destruct Habs.
  - intros H. destruct (unmappedPropsOf P c pm) as [|d l] eqn:E; [reflexivity|].
    assert (In d (unmappedPropsOf P c pm)) as Hd by (rewrite E; now left).
    apply In_unmappedPropsOf in Hd as (name & propDef & Hin & Hused & Hd).
    destruct Hused. apply (H name propDef Hin).
    apply (generateSingle_supported P name). eauto.
Qed.

Lemma no_suggestion_for_textComponent :
  unmappedPropsOf examplePlatform textComponent [("label", FigmaString "Text#1:2")] = [].
Proof.
  apply no_suggestion_iff_all_used.
  intros name propDef [H|[]] _. injection H as <- <-.
  apply setHas_In. reflexivity.
Defined.

Lemma pretty_N_go_digits (x : N) (s : string) :
  allString isDigit s = true -> allString isDigit (pretty_N_go x s) = true.
Proof.
  revert s. induction (N.lt_wf_0 x) as [x _ IH]; intros s Hs.
  destruct (N.eq_dec x 0%N) as [->|Hx].
  - now rewrite pretty_N_go_0.
  - rewrite pretty_N_go_step by lia. apply IH.
    + apply N.div_lt; lia.
    + cbn [allString]. rewrite Hs, andb_true_r.
      unfold pretty_N_char. repeat case_match; reflexivity.
Qed.

Lemma index_is_not_figmaPropName (n : nat) : pretty n <> "figmaPropName".
Proof.
  intros H.
  assert (allString isDigit (pretty n) = true) as Hd.
  { unfold pretty, pretty_nat, pretty, pretty_N.
    destruct (decide (N.of_nat n = 0%N)); [reflexivity|].
    now apply pretty_N_go_digits. }
  rewrite H in Hd. discriminate.
Qed.

Lemma In_arrayEntries (k : string) (w : JsValue) (from : nat) (l : list string) :
  In (k, w) (arrayEntries from l) ->
  k <> "figmaPropName" /\ isObject w = false.
Proof.
  revert from. induction l as [|x l IH]; intros from; simpl; [tauto|].
  intros [H|H]; [|eauto].
  injection H as <- <-. split; [apply index_is_not_figmaPropName | reflexivity].
Qed.

Lemma In_objectOfValueMapping_inv (k : string) (w : JsValue)
    (vm : list (string * ValueMappingKind Intrinsic)) :
  In (k, w) (objectOfValueMapping vm) ->
  exists v, In (k, v) vm /\ w = objectOfValue v.
Proof.
  induction vm as [|[k' v'] vm IH]; simpl; [tauto|].
  intros [H|H].
  - injection H as -> <-. eauto.
  - destruct (IH H) as (v & Hin & ->). eauto.
Qed.

Lemma nestedPlainKeys_In (vm : list (string * ValueMappingKind Intrinsic))
    (k : string) (v : ValueMappingKind Intrinsic) :
  nestedPlainKeys vm = true -> In (k, v) vm ->
  k <> "figmaPropName" /\
  match v with VIntrinsic i => hasPlainKeys i = true | _ => True end.
Proof.
  induction vm as [|[k' v'] vm IH]; simpl; [tauto|].
  intros H. apply andb_true_iff in H as [H Hr]. apply andb_true_iff in H as [Hk Hv].
  intros [E|Hin]; [|auto].
  injection E as -> ->. split.
  - apply negb_true_iff in Hk. now apply String.eqb_neq.
  - destruct v; auto.
Qed.

Lemma hasPlainKeys_valueMapping (p : string)
    (vm : list (string * ValueMappingKind Intrinsic)) :
  hasPlainKeys (FigmaBoolean p (Some vm)) = nestedPlainKeys vm /\
  hasPlainKeys (FigmaEnum p (Some vm)) = nestedPlainKeys vm.
Proof. split; reflexivity. Qed.

Lemma attributeValue_valueMapping (name : string)
    (vm : list (string * ValueMappingKind Intrinsic)) :
  nestedAll (fun i => hasPlainKeys i = true ->
                      attributeValue "figmaPropName" (objectOfIntrinsic i) (JString name) ->
                      refersTo name i) (Some vm) ->
  nestedPlainKeys vm = true ->
  attributeValue "figmaPropName" (JObject (objectOfValueMapping vm)) (JString name) ->
  exists k i, In (k, VIntrinsic i) vm /\ refersTo name i.
Proof.
  unfold nestedAll. intros Hall Hkeys H.
  rewrite List.Forall_forall in Hall.
  inversion H as [? ? Hin|? k child ? Hin Hchild]; subst.
  - apply In_objectOfValueMapping_inv in Hin as (v & Hin & _).
    destruct (nestedPlainKeys_In vm _ v Hkeys Hin) as [Hk _]. now destruct Hk.
  - apply In_objectOfValueMapping_inv in Hin as (v & Hin & ->).
    destruct (nestedPlainKeys_In vm k v Hkeys Hin) as [_ Hv].
    destruct v as [i|s|t|b|];
      try (apply attributeValue_object in Hchild; discriminate).
    exists k, i. split; [exact Hin|].
    apply (Hall (k, VIntrinsic i) Hin); assumption.
Qed.

Lemma attributeValue_cons (name k : string) (w v : JsValue)
    (es : list (string * JsValue)) :
  attributeValue name (JObject ((k, w) :: es)) v ->
  (k = name /\ w = v) \/ attributeValue name w v \/ attributeValue name (JObject es) v.
Proof.
  intros H. inversion H as [? ? Hin|? k' child ? Hin Hchild]; subst.
  - destruct Hin as [E|Hin].
    + injection E as -> ->. now left.
    + right. right. now apply attribute_here.
  - destruct Hin as [E|Hin].
    + injection E as -> ->. right. now left.
    + right. right. now apply attribute_below with k' child.
Qed.

Lemma attributeValue_nil (name : string) (v : JsValue) :
  ~ attributeValue name (JObject []) v.
Proof. intros H. inversion H as [? ? Hin|? ? ? ? Hin]; destruct Hin. Qed.

Ltac split_attribute H :=
  repeat match type of H with
    | attributeValue _ (JObject (_ :: _)) _ =>
        apply attributeValue_cons in H; destruct H as [[? ?]|[H|H]]
    | attributeValue _ (JObject []) _ => apply attributeValue_nil in H; destruct H
    | attributeValue _ (JString _) _ => apply attributeValue_object in H; discriminate
    end;
  try discriminate.

Lemma attributeValue_array (name : string) (from : nat) (l : list string) :
  ~ attributeValue "figmaPropName" (JObject (arrayEntries from l)) (JString name).
Proof.
  intros H. inversion H as [? ? Hin|? k child ? Hin Hchild]; subst.
  - apply In_arrayEntries in Hin as [Hk _]. now destruct Hk.
  - apply In_arrayEntries in Hin as [_ Ho].
    apply attributeValue_object in Hchild. congruence.
Qed.

Ltac name_found H := injection H as <-; constructor.

Lemma attributeValue_refersTo (i : Intrinsic) (name : string) :
  hasPlainKeys i = true ->
  attributeValue "figmaPropName" (objectOfIntrinsic i) (JString name) ->
  refersTo name i.
Proof.
  induction i as [p|p [vm|] IH|p [vm|] IH|p|layers|layer|kind args]
    using Intrinsic_tree_ind; intros Hkeys H.
  - simpl in H. split_attribute H.
    match goal with E : JString _ = JString _ |- _ => name_found E end.
  - rewrite (proj1 (objectOfIntrinsic_valueMapping p vm)) in H.
    rewrite (proj1 (hasPlainKeys_valueMapping p vm)) in Hkeys.
    split_attribute H.
    + match goal with E : JString _ = JString _ |- _ => name_found E end.
    + destruct (attributeValue_valueMapping name vm IH Hkeys H) as (k & i & Hin & Hi).
      now apply refers_boolean_nested with k i.
  - simpl in H. split_attribute H.
    match goal with E : JString _ = JString _ |- _ => name_found E end.
  - rewrite (proj2 (objectOfIntrinsic_valueMapping p vm)) in H.
    rewrite (proj2 (hasPlainKeys_valueMapping p vm)) in Hkeys.
    split_attribute H.
    + match goal with E : JString _ = JString _ |- _ => name_found E end.
    + destruct (attributeValue_valueMapping name vm IH Hkeys H) as (k & i & Hin & Hi).
      now apply refers_enum_nested with k i.
  - simpl in H. split_attribute H.
    match goal with E : JString _ = JString _ |- _ => name_found E end.
  - simpl in H. split_attribute H.
    match goal with E : JString _ = JString _ |- _ => name_found E end.
  - change (objectOfIntrinsic (FigmaChildren layers))
      with (JObject [("kind", JString "children");
                     ("args", JObject [("layers", JObject (arrayEntries 0 layers))])]) in H.
    split_attribute H. now apply attributeValue_array in H.
  - simpl in H. split_attribute H.
  - discriminate.
Qed.

(** X11.  For a mapping whose intrinsics are of the six kinds and whose value
    mappings have no key called [figmaPropName], a name is in the set of
    used names exactly when an intrinsic of the mapping, nested ones
    included, has it as its [figmaPropName]: a property is taken for mapped
    only when the mapping names it. *)
Theorem used_iff_referred (pm : PropMapping) (name : string) :
  (forall code i, In (code, i) pm -> hasPlainKeys i = true) ->
  In (JString name)
     (getSetOfAllPropsReferencedInPropMapping (objectOfPropMapping pm)) <->
  exists code i, In (code, i) pm /\ refersTo name i.
Proof.
  intros Hkeys. split.
  - intros H. apply getSet_attributeValue in H.
    inversion H as [? ? Hin|? k child ? Hin Hchild]; subst.
    + apply List.in_map_iff in Hin as ([code i] & E & _).
      injection E as _ E. destruct i; discriminate.
    + apply List.in_map_iff in Hin as ([code i] & E & Hin).
      injection E as <- <-. exists code, i. split; [exact Hin|].
      apply attributeValue_refersTo; [now apply (Hkeys code) | exact Hchild].
  - intros (code & i & Hin & Hi). now apply refersTo_used with code i.
Qed.

Lemma B_is_used_because_referred :
  In (JString "B")
     (getSetOfAllPropsReferencedInPropMapping (objectOfPropMapping abMapping)) <->
  exists code i, In (code, i) abMapping /\ refersTo "B" i.
Proof.
  apply used_iff_referred.
  intros code i [H|[]]. injection H as <- <-. reflexivity.
Defined.

(** A key of a value mapping called [figmaPropName] puts its value among the
    used names although no intrinsic refers to it. *)
Example valueMapping_key_figmaPropName :
  getSetOfAllPropsReferencedInPropMapping
    (objectOfPropMapping
       [("tone", FigmaEnum "A" (Some [("figmaPropName", VString "C")]))]) =
  [JString "A"; JString "C"].
Proof. reflexivity. Qed.

(** ** Lines 199-211: the shape of an import path *)

Lemma dropJsxTsxExtension_of_dotted (r : string) :
  dropJsxTsxExtension (String "." r) =
  if String.eqb (String "." r) ".jsx" || String.eqb (String "." r) ".tsx"
  then "" else String "." (dropJsxTsxExtension r).
Proof. reflexivity. Qed.

(** X12.  An import path starts with a dot, with one exception: a system
    path that, once its separators are slashes, is just [.jsx] or [.tsx]
    gives the empty import path. *)
Theorem formatImportPath_starts_with_dot (P : Platform) (systemPath : string) :
  let slashed := replaceAll (path_sep P) "/" systemPath in
  (slashed = ".jsx" \/ slashed = ".tsx" -> formatImportPath P systemPath = "") /\
  (slashed <> ".jsx" -> slashed <> ".tsx" ->
   startsWithDot (formatImportPath P systemPath) = true).
Proof.
  intros slashed. unfold formatImportPath. fold slashed. split.
  - intros [->| ->]; reflexivity.
  - intros Hj Ht. destruct (startsWithDot slashed) eqn:E; cbn [negb].
    + destruct slashed as [|c r]; [discriminate|].
      simpl in E. apply Ascii.eqb_eq in E. subst c.
      rewrite dropJsxTsxExtension_of_dotted.
      apply String.eqb_neq in Hj, Ht. now rewrite Hj, Ht.
    + change ("./" +:+ slashed) with (String "." (String "/" slashed)).
      rewrite dropJsxTsxExtension_of_dotted. reflexivity.
Qed.

Lemma import_path_of_sibling_starts_with_dot :
  startsWithDot (formatImportPath examplePlatform "Button.tsx") = true.
Proof.
  apply formatImportPath_starts_with_dot; discriminate.
Defined.

Lemma allString_dropJsxTsxExtension (p : ascii -> bool) (s : string) :
  allString p s = true -> allString p (dropJsxTsxExtension s) = true.
Proof.
  induction s as [|c r IH]; [reflexivity|].
  cbn [dropJsxTsxExtension].
  destruct (String.eqb (String c r) ".jsx" || String.eqb (String c r) ".tsx");
    [reflexivity|].
  cbn [allString]. intros H. apply andb_true_iff in H as [-> Hr]. now apply IH.
Qed.

(** X13.  Where the separator of the platform is one unit other than a slash
    and a dot, as the backslash of Windows is, no separator is left in an
    import path. *)
Theorem formatImportPath_has_no_separator (P : Platform) (sep : ascii)
    (systemPath : string) :
  path_sep P = String sep EmptyString -> sep <> "/"%char -> sep <> "."%char ->
  allString (fun c => negb (Ascii.eqb c sep)) (formatImportPath P systemPath) = true.
Proof.
  intros Hsep Hslash Hdot. unfold formatImportPath.
  rewrite Hsep, replaceAll_one_unit.
  apply allString_dropJsxTsxExtension.
  assert (allString (fun c => negb (Ascii.eqb c sep))
            (mapString (fun d => if Ascii.eqb d sep then "/"%char else d) systemPath)
          = true) as Hmap.
  { induction systemPath as [|d r IH]; cbn [mapString allString]; [reflexivity|].
    rewrite IH, andb_true_r.
    destruct (Ascii.eqb d sep) eqn:E; [|now rewrite E].
    apply negb_true_iff, Ascii.eqb_neq. congruence. }
  destruct (startsWithDot _); cbn [negb]; [exact Hmap|].
  change ("./" +:+ ?x) with (String "." (String "/" x)).
  cbn [allString]. rewrite Hmap.
  assert (Ascii.eqb "." sep = false) as -> by (apply Ascii.eqb_neq; congruence).
  assert (Ascii.eqb "/" sep = false) as -> by (apply Ascii.eqb_neq; congruence).
  reflexivity.
Qed.

Lemma windows_import_path_has_no_backslash :
  allString (fun c => negb (Ascii.eqb c "\"))
            (formatImportPath backslashPlatform "..\src\ui\Button.tsx") = true.
Proof.
  apply formatImportPath_has_no_separator; [reflexivity | discriminate | discriminate].
Defined.

Example windows_import_path :
  formatImportPath backslashPlatform "..\src\ui\Button.tsx" = "../src/ui/Button".
Proof. reflexivity. Qed.

(** ** Lines 179-197: the block of props with no mapping *)

(** X14.  The text of the props with no mapping is [{}] only for a component
    without any property; a component whose properties are all of
    unsupported types gets a block with an empty line instead. *)
Theorem generateProps_empty_braces (P : Platform) (c : Component) :
  (generateProps P c = "{}" <-> componentPropertyDefinitions c = []) /\
  (componentPropertyDefinitions c <> [] ->
   (forall e, In e (componentPropertyDefinitions c) ->
              supportedType (type (snd e)) = false) ->
   generateProps P c = "{" +:+ nl +:+ "  " +:+ nl +:+ "}").
Proof.
  unfold generateProps, autoPropsOf.
  destruct (componentPropertyDefinitions c) as [|e l] eqn:E.
  - split; [tauto | intros H; now destruct H].
  - split; [split; discriminate|].
    intros _ Hall.
    assert (flat_map (fun e => pushIfTruthy
              (generateSinglePropMappingFromFigmaProp P (fst e) (snd e))) (e :: l) = [])
      as ->; [|reflexivity].
    generalize (e :: l) Hall. clear. intros defs.
    induction defs as [|[name propDef] defs IH]; intros Hall; simpl; [reflexivity|].
    rewrite IH by (intros x Hx; apply Hall; now right).
    rewrite pushIfTruthy_generateSingle.
    destruct (generateSinglePropMappingFromFigmaProp P name propDef) eqn:G;
      [|reflexivity].
    assert (supportedType (type propDef) = true)
      by (apply (generateSingle_supported P name); eauto).
    specialize (Hall (name, propDef) (or_introl eq_refl)). simpl in Hall. congruence.
Qed.

Lemma generateProps_only_unsupported :
  generateProps examplePlatform
    {| normalizedName := "Box"; figmaNodeUrl := "";
       componentPropertyDefinitions := [("Corner", plainProperty (OtherType "FLOAT"))] |} =
  "{" +:+ nl +:+ "  " +:+ nl +:+ "}".
Proof.
  apply generateProps_empty_braces; [discriminate|].
  intros e [<-|[]]. reflexivity.
Defined.

(** ** Lines 238-247 and 291-306: the destination and the file system *)

Lemma beforeFirstDot_spec (s : string) :
  hasNoDot (beforeFirstDot s) /\
  exists rest, s = beforeFirstDot s +:+ rest /\
               (rest = "" \/ startsWithDot rest = true).
Proof.
  unfold hasNoDot. induction s as [|c s [IH (rest & Hrest & Hshape)]]; simpl.
  - split; [reflexivity|]. exists "". auto.
  - destruct (Ascii.eqb c ".") eqn:E; simpl.
    + split; [reflexivity|]. exists (String c s). split; [reflexivity|].
      right. exact E.
    + rewrite E, IH. split; [reflexivity|]. exists rest.
      split; [now rewrite <- Hrest | exact Hshape].
Qed.

(** X15.  When a source path is given, the base name of the destination is
    the name of the source file cut at its first dot: it holds no dot, and
    what [path.parse] gives is that base name, followed by nothing or by a
    dot and the rest. *)
Theorem sourceFilename_has_no_dot (P : Platform) (payload : CreateRequestPayload)
    (source : string) :
  sourceFilepath payload = Some source -> source <> "" ->
  hasNoDot (sourceFilenameOf P payload) /\
  exists rest, path_parse_name P source = sourceFilenameOf P payload +:+ rest /\
               (rest = "" \/ startsWithDot rest = true).
Proof.
  intros Hs Hne. unfold sourceFilenameOf. rewrite Hs.
  apply truthy_true in Hne. rewrite Hne. apply beforeFirstDot_spec.
Qed.

Lemma sourceFilename_of_test_file :
  let payload :=
    payloadOf buttonComponent None (Some "/work/src/Button.test.tsx") None None in
  hasNoDot (sourceFilenameOf examplePlatform payload) /\
  exists rest, path_parse_name examplePlatform "/work/src/Button.test.tsx" =
               sourceFilenameOf examplePlatform payload +:+ rest /\
               (rest = "" \/ startsWithDot rest = true).
Proof.
  apply sourceFilename_has_no_dot; [reflexivity | discriminate].
Defined.

Example test_file_base_name :
  sourceFilenameOf examplePlatform
    (payloadOf buttonComponent None (Some "/work/src/Button.test.tsx") None None) =
  "Button".
Proof. reflexivity. Qed.

(** X16.  Whatever the payload and whatever the call does, a path that
    existed before the call holds afterwards what it held before: the call
    never changes nor removes an existing file or directory. *)
Theorem createReactCodeConnect_keeps_what_exists (P : Platform)
    (payload : CreateRequestPayload) (fs : FileSystem) (p : string) (n : FsNode) :
  fs !! p = Some n ->
  snd (createReactCodeConnect P payload fs) !! p = Some n.
Proof.
  intros Hp. unfold createReactCodeConnect.
  destruct (formattedOf P payload) as [formatted|e]; [|exact Hp].
  destruct (existsSync fs (filePathOf P payload)) eqn:E; [exact Hp|].
  destruct (mkdirSync P (path_dirname P (filePathOf P payload)) fs) as [fs1|e] eqn:M;
    [|exact Hp].
  apply mkdirSync_inv in M as [-> _].
  destruct (writeFileSync P (filePathOf P payload) formatted _) as [fs2|e] eqn:W;
    cbn [snd].
  - apply writeFileSync_inv in W as ->.
    rewrite lookup_insert_ne
      by (intros <-; rewrite (existsSync_false fs _ E) in Hp; discriminate).
    now apply mkdir_fold_preserves.
  - now apply mkdir_fold_preserves.
Qed.

Lemma existing_file_is_kept :
  snd (createReactCodeConnect examplePlatform buttonPayload
         {[ "/work/figma/Other.figma.tsx" := File "kept" ]})
    !! "/work/figma/Other.figma.tsx" = Some (File "kept").
Proof.
  apply createReactCodeConnect_keeps_what_exists. reflexivity.
Defined.

(** X17.  A response tells what happened: it has no created file exactly
    when the destination existed before the call, and then the file system
    is as before; whenever the call returns, the destination exists
    afterwards. *)
Theorem response_reflects_conflict (P : Platform) (payload : CreateRequestPayload)
    (fs fs' : FileSystem) (response : CreateResponsePayload) :
  createReactCodeConnect P payload fs = (Return response, fs') ->
  (createdFiles response = [] <-> existsSync fs (filePathOf P payload) = true) /\
  (messages response = [] <-> existsSync fs (filePathOf P payload) = false) /\
  (existsSync fs (filePathOf P payload) = true -> fs' = fs) /\
  existsSync fs' (filePathOf P payload) = true.
Proof.
  unfold createReactCodeConnect.
  destruct (formattedOf P payload) as [formatted|e]; [|discriminate].
  destruct (existsSync fs (filePathOf P payload)) eqn:E.
  - intros H. injection H as <- <-. cbn [createdFiles messages].
    repeat split; intros; try discriminate; try reflexivity. exact E.
  - destruct (mkdirSync P (path_dirname P (filePathOf P payload)) fs) as [fs1|e];
      [|discriminate].
    destruct (writeFileSync P (filePathOf P payload) formatted fs1) as [fs2|e] eqn:W;
      [|discriminate].
    intros H. injection H as <- <-. cbn [createdFiles messages].
    apply writeFileSync_inv in W as ->.
    repeat split; intros; try discriminate; try reflexivity.
    unfold existsSync. apply bool_decide_eq_true.
    rewrite lookup_insert_eq. eauto.
Qed.

Lemma response_of_buttonPayload :
  (createdFiles {| createdFiles := [{| filePath := "/work/figma/Button.figma.tsx" |}];
                   messages := [] |} = [] <->
   existsSync (∅ : FileSystem) (filePathOf examplePlatform buttonPayload) = true) /\
  (messages {| createdFiles := [{| filePath := "/work/figma/Button.figma.tsx" |}];
               messages := [] |} = [] <->
   existsSync (∅ : FileSystem) (filePathOf examplePlatform buttonPayload) = false) /\
  (existsSync (∅ : FileSystem) (filePathOf examplePlatform buttonPayload) = true ->
   snd (createReactCodeConnect examplePlatform buttonPayload ∅) = ∅) /\
  existsSync (snd (createReactCodeConnect examplePlatform buttonPayload ∅))
             (filePathOf examplePlatform buttonPayload) = true.
Proof.
  apply (response_reflects_conflict examplePlatform buttonPayload ∅).
  vm_compute. reflexivity.
Defined.

(** Two calls on the button, from an empty file system. *)
Lemma buttonPayload_twice :
  let (first, fs1) := createReactCodeConnect examplePlatform buttonPayload ∅ in
  let (second, fs2) := createReactCodeConnect examplePlatform buttonPayload fs1 in
  first = Return {| createdFiles := [{| filePath := filePathOf examplePlatform buttonPayload |}];
                    messages := [] |} /\
  second = Return {| createdFiles := [];
                     messages := [conflictMessage (filePathOf examplePlatform buttonPayload)] |} /\
  fs2 = fs1 /\
  fs2 !! filePathOf examplePlatform buttonPayload =
    Some (File (match formattedOf examplePlatform buttonPayload with
                | Return text => text
                | Throw _ => ""
                end)).
Proof.
  apply (createReactCodeConnect_twice examplePlatform buttonPayload ∅).
  - reflexivity.
  - reflexivity.
  - intros a Ha. reflexivity.
  - vm_compute. intros [H|[H|[H|[]]]]; discriminate.
Defined.
